(** * SPL token instruction codec (pyserum): a shallow embedding

    Sources embedded here:
    - [spl/token/instructions.py]: parameter records, the five implemented
      encoders and decoders, the shared [__add_signers] helper and the
      encoders/decoders that raise [NotImplementedError];
    - [solana/token_program.py]: the instruction indices, the layout table
      [TOKEN_INSTRUCTION_LAYOUTS], [decode_instruction_layout] and its
      decoders, every one of which raises [NotImplementedError].

    Python exceptions are modelled by an error type and a [result] monad;
    byte strings are [list byte]; Python integers are [Z]; the in-place
    [keys.append] of [__add_signers] is explicit state passing. *)

From Stdlib Require Import String ZArith List Bool Lia.
From coqutil Require Import Byte Word.LittleEndianList.
Import ListNotations.
Local Open Scope Z_scope.
Local Open Scope list_scope.

(** ** Exceptions and the result monad *)

(** The exceptions a call can end in.  [NotImplementedError], [ValueError],
    [AttributeError], [TypeError] and [IndexError] are Python's own; the
    other four carry the names the specification gives to the failures of
    the helpers that are not part of the embedded sources. *)
Inductive error : Type :=
| InvalidAccountCount (found : nat) (expected : Z)
| WrongInstructionType (expected actual : Z)
| TruncatedInstruction
| InvalidParameters
| NotImplementedError (msg : string)
| ValueError (msg : string)
| AttributeError (name : string)
| TypeError
| IndexError.

Inductive result (A : Type) : Type :=
| Ok (a : A)
| Err (e : error).
Arguments Ok {A} a.
Arguments Err {A} e.

Definition bind {A B : Type} (r : result A) (k : A -> result B) : result B :=
  match r with
  | Ok a => k a
  | Err e => Err e
  end.

Declare Scope result_scope.
Delimit Scope result_scope with result.
Notation "x <- r ;; k" := (bind r (fun x => k))
  (at level 61, r at next level, right associativity) : result_scope.
Notation "' p <- r ;; k" := (bind r (fun v => let 'p := v in k))
  (at level 61, p pattern, r at next level, right associativity) : result_scope.
Notation "r ;; k" := (bind r (fun _ => k))
  (at level 61, right associativity) : result_scope.
Local Open Scope result_scope.

Definition is_ok {A : Type} (r : result A) : bool :=
  match r with Ok _ => true | Err _ => false end.

(** ** Binary layouts in the style of the [construct] library

    [construct] is a dependency of the repository, not part of it.  This
    module gives the part of its semantics the token layouts use: a [Struct]
    builds and parses its fields in order, an integer field is little-endian
    and rejects a value that does not fit, a parse that runs out of bytes
    fails, and bytes after the last field are left unread. *)
Module Construct.

(** Field kinds the layouts use: little-endian unsigned integers of a given
    byte width ([Int8ul], [Int32ul], [Int64ul]) and fixed-size blobs. *)
Inductive field : Type :=
| IntLE (width : nat)
| Bytes (n : nat).

Definition Int8ul : field := IntLE 1.
Definition Int32ul : field := IntLE 4.
Definition Int64ul : field := IntLE 8.

(** A field value, as Python holds it: an [int] or a [bytes]. *)
Inductive value : Type :=
| VInt (z : Z)
| VBytes (bs : list byte).

(** A [Struct] is an ordered list of named fields; a [Container] (and the
    [dict] handed to [build]) is an association list from names to values. *)
Definition struct : Type := list (string * field).
Definition container : Type := list (string * value).

Fixpoint lookup (name : string) (c : container) : option value :=
  match c with
  | [] => None
  | (k, v) :: c' => if String.eqb name k then Some v else lookup name c'
  end.

Definition field_size (f : field) : nat :=
  match f with
  | IntLE w => w
  | Bytes n => n
  end.

(** Building a field fails when the integer does not fit the width or the
    blob has the wrong length. *)
Definition build_field (f : field) (v : value) : result (list byte) :=
  match f, v with
  | IntLE w, VInt z =>
      if (0 <=? z) && (z <? 2 ^ (8 * Z.of_nat w))
      then Ok (le_split w z) else Err InvalidParameters
  | Bytes n, VBytes bs =>
      if Nat.eqb (length bs) n then Ok bs else Err InvalidParameters
  | _, _ => Err InvalidParameters
  end.

(** Parsing a field reads exactly its size from the stream and fails when
    the stream is shorter. *)
Definition parse_field (f : field) (stream : list byte)
  : result (value * list byte) :=
  if Nat.leb (field_size f) (length stream) then
    let raw := firstn (field_size f) stream in
    Ok (match f with
        | IntLE _ => VInt (le_combine raw)
        | Bytes _ => VBytes raw
        end, skipn (field_size f) stream)
  else Err TruncatedInstruction.

Fixpoint build_struct (s : struct) (c : container) : result (list byte) :=
  match s with
  | [] => Ok []
  | (name, f) :: s' =>
      match lookup name c with
      | None => Err InvalidParameters
      | Some v =>
          bs <- build_field f v ;;
          rest <- build_struct s' c ;;
          Ok (bs ++ rest)
      end
  end.

Fixpoint parse_struct (s : struct) (stream : list byte)
  : result (container * list byte) :=
  match s with
  | [] => Ok ([], stream)
  | (name, f) :: s' =>
      '(v, stream') <- parse_field f stream ;;
      '(c, stream'') <- parse_struct s' stream' ;;
      Ok ((name, v) :: c, stream'')
  end.

(** The container a struct reads back from what it built out of [c]: the
    fields of the layout, in layout order, with the values [c] gives them. *)
Fixpoint project (s : struct) (c : container) : container :=
  match s with
  | [] => []
  | (name, _) :: s' =>
      match lookup name c with
      | Some v => (name, v) :: project s' c
      | None => project s' c
      end
  end.

(** Attribute access on the parsed arguments ([parsed_data.args.amount]);
    [args] is [None] where the layout is [Pass]. *)
Definition attr (a : option container) (name : string) : result value :=
  match a with
  | None => Err (AttributeError name)
  | Some c =>
      match lookup name c with
      | Some v => Ok v
      | None => Err (AttributeError name)
      end
  end.

Definition attr_int (a : option container) (name : string) : result Z :=
  v <- attr a name ;;
  match v with
  | VInt z => Ok z
  | VBytes _ => Err TypeError
  end.

Definition attr_bytes (a : option container) (name : string)
  : result (list byte) :=
  v <- attr a name ;;
  match v with
  | VBytes bs => Ok bs
  | VInt _ => Err TypeError
  end.

End Construct.

(** ** The transaction types the codec works on *)

(** Modelled from the spec: [solana.publickey.PublicKey] is not among the
    embedded sources.  The specification treats a public key as a fixed
    32-byte blob; [key_bytes] is what [bytes(key)] returns and [mkPublicKey]
    is the constructor from bytes.  Python objects without [__bool__] are
    truthy, so only [None] is a falsy optional key. *)
Record PublicKey : Type := mkPublicKey { key_bytes : list byte }.

Definition valid_pubkey (k : PublicKey) : Prop := length (key_bytes k) = 32%nat.

(** [PublicKey(0)]: the all-zero key. *)
Definition PublicKey_zero : PublicKey := mkPublicKey (repeat Byte.x00 32).

(** Modelled from the spec: the address of the rent sysvar
    ([solana.sysvar.SYSVAR_RENT_PUBKEY], not among the embedded sources),
    the base-58 string SysvarRent111111111111111111111111111111111. *)
Definition SYSVAR_RENT_PUBKEY : PublicKey :=
  mkPublicKey (map byte.of_Z
    [6; 167; 213; 23; 25; 44; 92; 81; 33; 140; 201; 76; 61; 74; 241; 127;
     88; 218; 238; 8; 155; 161; 253; 68; 227; 219; 217; 138; 0; 0; 0; 0]).

(** Modelled from the spec: an account reference is an address plus two
    flags ([solana.transaction.AccountMeta]). *)
Module AccountMeta.
Record t : Type := mk { pubkey : PublicKey; is_signer : bool; is_writable : bool }.
End AccountMeta.

(** Modelled from the spec: an instruction is a program address, a data
    buffer and an ordered list of account references
    ([solana.transaction.TransactionInstruction]). *)
Module TransactionInstruction.
Record t : Type := mk {
  keys : list AccountMeta.t;
  program_id : PublicKey;
  data : list byte
}.
End TransactionInstruction.

(** [instruction.keys[i].pubkey]; Python raises [IndexError] out of range. *)
Definition key_at (instruction : TransactionInstruction.t) (i : nat)
  : result PublicKey :=
  match nth_error (TransactionInstruction.keys instruction) i with
  | Some meta => Ok (AccountMeta.pubkey meta)
  | None => Err IndexError
  end.

(** [l[-n:]] for [n >= 0]: the last [n] elements (all of [l] when it has
    fewer), except that [-0] is [0], so [l[-0:]] is the whole list. *)
Definition slice_last {A : Type} (n : nat) (l : list A) : list A :=
  match n with
  | O => l
  | S _ => skipn (length l - n) l
  end.

(** ** [solana.utils.validate] *)
Module Validate.

(** Modelled from the spec: [validate_instruction_keys] is not among the
    embedded sources.  The account-reference list must hold at least
    [expected] entries; fewer fails with [InvalidAccountCount]. *)
Definition validate_instruction_keys (instruction : TransactionInstruction.t)
  (expected : Z) : result unit :=
  if Z.of_nat (length (TransactionInstruction.keys instruction)) <? expected
  then Err (InvalidAccountCount
              (length (TransactionInstruction.keys instruction)) expected)
  else Ok tt.

End Validate.

(** ** [spl.token._layouts] *)
Module Layouts.
Import Construct.

(** The sixteen operation kinds, with the names [instructions.py] uses. *)
Inductive InstructionType : Type :=
| InitializeMint | InitializeAccount | InitializeMultisig | Transfer
| Approve | Revoke | SetAuthority | MintTo | Burn | CloseAccount
| FreezeAccount | ThawAccount | Transfer2 | Approve2 | MintTo2 | Burn2.

(** Modelled from the spec: the discriminant of each kind (0 to 15, in the
    order of the specification's table; [solana/token_program.py] lists the
    same numbers as its instruction indices). *)
Definition discriminant (t : InstructionType) : Z :=
  match t with
  | InitializeMint => 0 | InitializeAccount => 1 | InitializeMultisig => 2
  | Transfer => 3 | Approve => 4 | Revoke => 5 | SetAuthority => 6
  | MintTo => 7 | Burn => 8 | CloseAccount => 9 | FreezeAccount => 10
  | ThawAccount => 11 | Transfer2 => 12 | Approve2 => 13 | MintTo2 => 14
  | Burn2 => 15
  end.

Definition PUBLIC_KEY_LAYOUT : field := Bytes 32.

(** Modelled from the spec: the field layout of InitializeMint, with the
    field names [initialize_mint] passes to [build].  The optional freeze
    authority is a 4-byte option flag followed by a 32-byte slot that is
    always present. *)
Definition _INITIALIZE_MINT_LAYOUT : struct :=
  [("decimals"%string, Int8ul);
   ("mint_authority"%string, PUBLIC_KEY_LAYOUT);
   ("freeze_authority_option"%string, Int32ul);
   ("freeze_authority"%string, PUBLIC_KEY_LAYOUT)].

(** Modelled from the spec: the signer count of InitializeMultisig is one
    byte. *)
Definition _INITIALIZE_MULTISIG_LAYOUT : struct := [("m"%string, Int8ul)].

(** Modelled from the spec: token amounts are 8-byte unsigned integers. *)
Definition _AMOUNT_LAYOUT : struct := [("amount"%string, Int64ul)].

(** Modelled from the spec: the authority type is a 4-byte unsigned integer,
    followed by a 32-byte key ([I32s] in [TOKEN_INSTRUCTION_LAYOUTS]). *)
Definition _SET_AUTHORITY_LAYOUT : struct :=
  [("authority_type"%string, Int32ul);
   ("new_authority"%string, PUBLIC_KEY_LAYOUT)].

(** Modelled from the spec: the checked variants carry an amount and the
    decimals ([QB] in [TOKEN_INSTRUCTION_LAYOUTS]). *)
Definition _AMOUNT2_LAYOUT : struct :=
  [("amount"%string, Int64ul); ("decimals"%string, Int8ul)].

(** Modelled from the spec: the [Switch] on the discriminant.  [None] is
    [Pass]: no field follows the discriminant.  A value outside 0..15 has
    no case and falls to [Pass] too, as [construct]'s [Switch] does without
    a default. *)
Definition switch (instruction_type : Z) : option struct :=
  match instruction_type with
  | 0 => Some _INITIALIZE_MINT_LAYOUT
  | 2 => Some _INITIALIZE_MULTISIG_LAYOUT
  | 3 | 4 | 7 | 8 => Some _AMOUNT_LAYOUT
  | 6 => Some _SET_AUTHORITY_LAYOUT
  | 12 | 13 | 14 | 15 => Some _AMOUNT2_LAYOUT
  | _ => None
  end.

(** What [INSTRUCTIONS_LAYOUT.parse] returns: the discriminant read from the
    first byte and the arguments ([None] for [Pass]). *)
Record ParsedInstruction : Type := mkParsed {
  instruction_type : Z;
  args : option container
}.

(** Modelled from the spec: [INSTRUCTIONS_LAYOUT.build(dict(instruction_type
    = t, args = a))].  The output begins with the 1-byte discriminant,
    followed by the kind's fields. *)
Definition INSTRUCTIONS_LAYOUT_build (t : InstructionType)
  (a : option container) : result (list byte) :=
  tag <- build_field Int8ul (VInt (discriminant t)) ;;
  match switch (discriminant t) with
  | None => Ok tag
  | Some s =>
      match a with
      | None => Err InvalidParameters
      | Some c => body <- build_struct s c ;; Ok (tag ++ body)
      end
  end.

(** Modelled from the spec: [INSTRUCTIONS_LAYOUT.parse(data)].  The first
    byte is the discriminant; the bytes after it are parsed per the layout
    of that discriminant; a buffer shorter than the layout fails with
    [TruncatedInstruction]; bytes past the layout are left unread. *)
Definition INSTRUCTIONS_LAYOUT_parse (data : list byte)
  : result ParsedInstruction :=
  '(tag, rest) <- parse_field Int8ul data ;;
  match tag with
  | VBytes _ => Err TypeError
  | VInt t =>
      match switch t with
      | None => Ok (mkParsed t None)
      | Some s => '(c, _) <- parse_struct s rest ;; Ok (mkParsed t (Some c))
      end
  end.

(** Modelled from the spec: [validate_instruction_type] (in
    [solana.utils.validate], not among the embedded sources).  A mismatch
    fails with [WrongInstructionType], carrying the expected and the actual
    discriminant. *)
Definition validate_instruction_type (parsed_data : ParsedInstruction)
  (expected_type : InstructionType) : result unit :=
  if instruction_type parsed_data =? discriminant expected_type
  then Ok tt
  else Err (WrongInstructionType (discriminant expected_type)
              (instruction_type parsed_data)).

End Layouts.

(** ** [spl/token/instructions.py] *)
Module Instructions.
Import Construct Layouts Validate.

Inductive AuthorityType : Type :=
| MintTokens | FreezeAccountAuthority | AccountOwner | CloseAccountAuthority.

(** *** Instruction params *)

Module InitializeMintParams.
Record t : Type := mk {
  decimals : Z;
  program_id : PublicKey;
  mint : PublicKey;
  mint_authority : PublicKey;
  freeze_authority : option PublicKey
}.
End InitializeMintParams.

Module InitializeAccountParams.
Record t : Type := mk {
  program_id : PublicKey;
  account : PublicKey;
  mint : PublicKey;
  owner : PublicKey
}.
End InitializeAccountParams.

Module InitializeMultisigParams.
Record t : Type := mk {
  program_id : PublicKey;
  multisig : PublicKey;
  signers : list PublicKey;
  m : Z
}.
End InitializeMultisigParams.

Module TransferParams.
Record t : Type := mk {
  program_id : PublicKey;
  source : PublicKey;
  destination : PublicKey;
  authority : PublicKey;
  signers : list PublicKey;
  amount : Z
}.
End TransferParams.

Module ApproveParams.
Record t : Type := mk {
  program_id : PublicKey;
  source : PublicKey;
  delegate : PublicKey;
  owner : PublicKey;
  signers : list PublicKey;
  amount : Z
}.
End ApproveParams.

Module RevokeParams.
Record t : Type := mk {
  program_id : PublicKey;
  source : PublicKey;
  owner : PublicKey;
  signers : list PublicKey
}.
End RevokeParams.

Module SetAuthorityParams.
Record t : Type := mk {
  authority : AuthorityType;
  new_authority : option PublicKey
}.
End SetAuthorityParams.

Module MintToParams.
Record t : Type := mk {
  program_id : PublicKey;
  mint : PublicKey;
  account : PublicKey;
  owner : PublicKey;
  signers : list PublicKey;
  amount : Z
}.
End MintToParams.

Module BurnParams.
Record t : Type := mk {
  program_id : PublicKey;
  account : PublicKey;
  mint : PublicKey;
  authority : PublicKey;
  signers : list PublicKey;
  amount : Z
}.
End BurnParams.

Module CloseAccountParams.
Record t : Type := mk {
  program_id : PublicKey;
  account : PublicKey;
  destination : PublicKey;
  owner : PublicKey;
  signers : list PublicKey
}.
End CloseAccountParams.

Module FreezeAccountParams.
Record t : Type := mk {
  program_id : PublicKey;
  account : PublicKey;
  mint : PublicKey;
  owner : PublicKey;
  signers : list PublicKey
}.
End FreezeAccountParams.

Module ThawAccountParams.
Record t : Type := mk {
  program_id : PublicKey;
  account : PublicKey;
  mint : PublicKey;
  owner : PublicKey;
  signers : list PublicKey
}.
End ThawAccountParams.

Module Transfer2Params.
Record t : Type := mk {
  program_id : PublicKey;
  mint : PublicKey;
  source : PublicKey;
  destination : PublicKey;
  authority : PublicKey;
  signers : list PublicKey;
  amount : Z;
  decimal : Z
}.
End Transfer2Params.

Module Approve2Params.
Record t : Type := mk {
  program_id : PublicKey;
  mint : PublicKey;
  source : PublicKey;
  delegate : PublicKey;
  owner : PublicKey;
  signers : list PublicKey;
  amount : Z;
  decimal : Z
}.
End Approve2Params.

Module MintTo2Params.
Record t : Type := mk {
  program_id : PublicKey;
  mint : PublicKey;
  account : PublicKey;
  owner : PublicKey;
  signers : list PublicKey;
  amount : Z;
  decimal : Z
}.
End MintTo2Params.

Module Burn2Params.
Record t : Type := mk {
  program_id : PublicKey;
  mint : PublicKey;
  account : PublicKey;
  owner : PublicKey;
  signers : list PublicKey;
  amount : Z;
  decimal : Z
}.
End Burn2Params.

(** [[signer.pubkey for signer in metas]] *)
Definition pubkeys (metas : list AccountMeta.t) : list PublicKey :=
  map AccountMeta.pubkey metas.

(** *** Decoders *)

Definition decode_initialize_mint (instruction : TransactionInstruction.t)
  : result InitializeMintParams.t :=
  validate_instruction_keys instruction 2 ;;
  parsed_data <- INSTRUCTIONS_LAYOUT_parse (TransactionInstruction.data instruction) ;;
  validate_instruction_type parsed_data InitializeMint ;;
  decimals <- attr_int (args parsed_data) "decimals" ;;
  mint <- key_at instruction 0 ;;
  mint_authority <- attr_bytes (args parsed_data) "mint_authority" ;;
  freeze_authority_option <- attr_int (args parsed_data) "freeze_authority_option" ;;
  freeze_authority <-
    (if freeze_authority_option =? 0 then Ok None
     else fa <- attr_bytes (args parsed_data) "freeze_authority" ;;
          Ok (Some (mkPublicKey fa))) ;;
  Ok (InitializeMintParams.mk decimals
        (TransactionInstruction.program_id instruction)
        mint (mkPublicKey mint_authority) freeze_authority).

Definition decode_initialize_account (instruction : TransactionInstruction.t)
  : result InitializeAccountParams.t :=
  validate_instruction_keys instruction 4 ;;
  parsed_data <- INSTRUCTIONS_LAYOUT_parse (TransactionInstruction.data instruction) ;;
  validate_instruction_type parsed_data InitializeAccount ;;
  account <- key_at instruction 0 ;;
  mint <- key_at instruction 1 ;;
  owner <- key_at instruction 2 ;;
  Ok (InitializeAccountParams.mk
        (TransactionInstruction.program_id instruction) account mint owner).

Definition decode_initialize_multisig (instruction : TransactionInstruction.t)
  : result InitializeMultisigParams.t :=
  parsed_data <- INSTRUCTIONS_LAYOUT_parse (TransactionInstruction.data instruction) ;;
  validate_instruction_type parsed_data InitializeMultisig ;;
  num_signers <- attr_int (args parsed_data) "m" ;;
  validate_instruction_keys instruction (2 + num_signers) ;;
  multisig <- key_at instruction 0 ;;
  Ok (InitializeMultisigParams.mk
        (TransactionInstruction.program_id instruction)
        multisig
        (pubkeys (slice_last (Z.to_nat num_signers)
                    (TransactionInstruction.keys instruction)))
        num_signers).

Definition decode_transfer (instruction : TransactionInstruction.t)
  : result TransferParams.t :=
  validate_instruction_keys instruction 3 ;;
  parsed_data <- INSTRUCTIONS_LAYOUT_parse (TransactionInstruction.data instruction) ;;
  validate_instruction_type parsed_data Transfer ;;
  source <- key_at instruction 0 ;;
  destination <- key_at instruction 1 ;;
  authority <- key_at instruction 2 ;;
  amount <- attr_int (args parsed_data) "amount" ;;
  Ok (TransferParams.mk
        (TransactionInstruction.program_id instruction)
        source destination authority
        (pubkeys (skipn 3 (TransactionInstruction.keys instruction)))
        amount).

Definition decode_approve (instruction : TransactionInstruction.t)
  : result ApproveParams.t :=
  Err (NotImplementedError "decode_token_approve not implemented").

Definition decode_revoke (instruction : TransactionInstruction.t)
  : result RevokeParams.t :=
  Err (NotImplementedError "decode_token_revoke not implemented").

Definition decode_set_authority (instruction : TransactionInstruction.t)
  : result SetAuthorityParams.t :=
  Err (NotImplementedError "decode_set_authority not implemented").

Definition decode_mint_to (instruction : TransactionInstruction.t)
  : result MintToParams.t :=
  Err (NotImplementedError "decode_mint_to not implemented").

Definition decode_burn (instruction : TransactionInstruction.t)
  : result BurnParams.t :=
  Err (NotImplementedError "decode_burn not implemented").

Definition decode_close_account (instruction : TransactionInstruction.t)
  : result CloseAccountParams.t :=
  validate_instruction_keys instruction 3 ;;
  parsed_data <- INSTRUCTIONS_LAYOUT_parse (TransactionInstruction.data instruction) ;;
  validate_instruction_type parsed_data CloseAccount ;;
  account <- key_at instruction 0 ;;
  destination <- key_at instruction 1 ;;
  owner <- key_at instruction 2 ;;
  Ok (CloseAccountParams.mk
        (TransactionInstruction.program_id instruction)
        account destination owner
        (pubkeys (skipn 3 (TransactionInstruction.keys instruction)))).

Definition decode_thaw_account (instruction : TransactionInstruction.t)
  : result ThawAccountParams.t :=
  Err (NotImplementedError "decode_thaw_account not implemented").

Definition decode_transfer2 (instruction : TransactionInstruction.t)
  : result Transfer2Params.t :=
  Err (NotImplementedError "decode_transfer2 not implemented").

Definition decode_approve2 (instruction : TransactionInstruction.t)
  : result Transfer2Params.t :=
  Err (NotImplementedError "decode_approve2 not implemented").

Definition decode_mint_to2 (instruction : TransactionInstruction.t)
  : result MintTo2Params.t :=
  Err (NotImplementedError "decode_mint_to2 not implemented").

Definition decode_burn2 (instruction : TransactionInstruction.t)
  : result MintTo2Params.t :=
  Err (NotImplementedError "decode_burn2 not implemented").

(** *** Encoders *)

(** [__add_signers] appends to [keys] in place and returns nothing; here it
    returns the list after the appends. *)
Definition __add_signers (keys : list AccountMeta.t) (owner : PublicKey)
  (signers : list PublicKey) : list AccountMeta.t :=
  match signers with
  | _ :: _ =>
      fold_left
        (fun keys signer => keys ++ [AccountMeta.mk signer true false])
        signers
        (keys ++ [AccountMeta.mk owner false false])
  | [] => keys ++ [AccountMeta.mk owner true false]
  end.

Definition initialize_mint (params : InitializeMintParams.t)
  : result TransactionInstruction.t :=
  let '(freeze_authority, opt) :=
    match InitializeMintParams.freeze_authority params with
    | Some fa => (fa, 1)
    | None => (PublicKey_zero, 0)
    end in
  data <- INSTRUCTIONS_LAYOUT_build InitializeMint
            (Some [("decimals"%string, VInt (InitializeMintParams.decimals params));
                   ("mint_authority"%string,
                    VBytes (key_bytes (InitializeMintParams.mint_authority params)));
                   ("freeze_authority_option"%string, VInt opt);
                   ("freeze_authority"%string, VBytes (key_bytes freeze_authority))]) ;;
  Ok (TransactionInstruction.mk
        [AccountMeta.mk (InitializeMintParams.mint params) false true;
         AccountMeta.mk SYSVAR_RENT_PUBKEY false false]
        (InitializeMintParams.program_id params)
        data).

Definition initialize_account (params : InitializeAccountParams.t)
  : result TransactionInstruction.t :=
  data <- INSTRUCTIONS_LAYOUT_build InitializeAccount None ;;
  Ok (TransactionInstruction.mk
        [AccountMeta.mk (InitializeAccountParams.account params) false true;
         AccountMeta.mk (InitializeAccountParams.mint params) false false;
         AccountMeta.mk (InitializeAccountParams.owner params) false false;
         AccountMeta.mk SYSVAR_RENT_PUBKEY false false]
        (InitializeAccountParams.program_id params)
        data).

Definition initialize_multisig (params : InitializeMultisigParams.t)
  : result TransactionInstruction.t :=
  data <- INSTRUCTIONS_LAYOUT_build InitializeMultisig
            (Some [("m"%string, VInt (InitializeMultisigParams.m params))]) ;;
  let keys :=
    [AccountMeta.mk (InitializeMultisigParams.multisig params) false true;
     AccountMeta.mk SYSVAR_RENT_PUBKEY false false] in
  let keys :=
    fold_left
      (fun keys signer => keys ++ [AccountMeta.mk signer false false])
      (InitializeMultisigParams.signers params) keys in
  Ok (TransactionInstruction.mk keys
        (InitializeMultisigParams.program_id params) data).

Definition transfer (params : TransferParams.t)
  : result TransactionInstruction.t :=
  data <- INSTRUCTIONS_LAYOUT_build Transfer
            (Some [("amount"%string, VInt (TransferParams.amount params))]) ;;
  let keys :=
    [AccountMeta.mk (TransferParams.source params) false true;
     AccountMeta.mk (TransferParams.destination params) false false] in
  let keys :=
    __add_signers keys (TransferParams.authority params)
      (TransferParams.signers params) in
  Ok (TransactionInstruction.mk keys (TransferParams.program_id params) data).

Definition approve (params : ApproveParams.t) : result TransactionInstruction.t :=
  Err (NotImplementedError "approve not implemented").

Definition revoke (params : RevokeParams.t) : result TransactionInstruction.t :=
  Err (NotImplementedError "revoke not implemented").

Definition set_authority (params : SetAuthorityParams.t)
  : result TransactionInstruction.t :=
  Err (NotImplementedError "set_authority not implemented").

Definition mint_to (params : MintToParams.t) : result TransactionInstruction.t :=
  Err (NotImplementedError "mint_to not implemented").

Definition burn (params : BurnParams.t) : result TransactionInstruction.t :=
  Err (NotImplementedError "burn not implemented").

Definition close_account (params : CloseAccountParams.t)
  : result TransactionInstruction.t :=
  data <- INSTRUCTIONS_LAYOUT_build CloseAccount None ;;
  let keys :=
    [AccountMeta.mk (CloseAccountParams.account params) false true;
     AccountMeta.mk (CloseAccountParams.destination params) false true] in
  let keys :=
    __add_signers keys (CloseAccountParams.owner params)
      (CloseAccountParams.signers params) in
  Ok (TransactionInstruction.mk keys (CloseAccountParams.program_id params) data).

Definition freeze_account (params : FreezeAccountParams.t)
  : result TransactionInstruction.t :=
  Err (NotImplementedError "freeze_account not implemented").

Definition thaw_account (params : ThawAccountParams.t)
  : result TransactionInstruction.t :=
  Err (NotImplementedError "thaw_account not implemented").

Definition transfer2 (params : Transfer2Params.t)
  : result TransactionInstruction.t :=
  Err (NotImplementedError "transfer2 not implemented").

Definition approve2 (params : Approve2Params.t)
  : result TransactionInstruction.t :=
  Err (NotImplementedError "approve2 not implemented").

Definition mint_to2 (params : MintTo2Params.t)
  : result TransactionInstruction.t :=
  Err (NotImplementedError "mint_to2 not implemented").

Definition burn2 (params : Burn2Params.t) : result TransactionInstruction.t :=
  Err (NotImplementedError "burn2 not implemented").

End Instructions.

(** ** [solana/token_program.py] *)
Module TokenProgram.

(** *** Instruction indices *)
Definition _INITIALIZE_MINT : Z := 0.
Definition _INITIALIZE_ACCOUNT : Z := 1.
Definition _INITIALIZE_MULTISIG : Z := 2.
Definition _TRANSFER : Z := 3.
Definition _APPROVE : Z := 4.
Definition _REVOKE : Z := 5.
Definition _SET_AUTHORITY : Z := 6.
Definition _MINT_TO : Z := 7.
Definition _BURN : Z := 8.
Definition _CLOSE_ACCOUNT : Z := 9.
Definition _FREEZE_ACCOUNT : Z := 10.
Definition _THAW_ACCOUNT : Z := 11.
Definition _TRANSFER2 : Z := 12.
Definition _APPROVE2 : Z := 13.
Definition _MINT_TO2 : Z := 14.
Definition _BURN2 : Z := 15.

Inductive AuthorityType : Type :=
| MintTokens | FreezeAccount | AccountOwner | CloseAccount.

(** *** Instruction params *)

Module InitializeMintParams.
Record t : Type := mk {
  token_program_id : PublicKey;
  mint : PublicKey;
  mint_authority : PublicKey;
  freeze_authority : option PublicKey;
  decimals : Z
}.
End InitializeMintParams.

Module InitializeAccountParams.
Record t : Type := mk {
  token_program_id : PublicKey;
  account : PublicKey;
  mint : PublicKey;
  owner : PublicKey
}.
End InitializeAccountParams.

Module InitializeMultisigParams.
Record t : Type := mk {
  token_program_id : PublicKey;
  multisig : PublicKey;
  signers : list PublicKey;
  m : Z
}.
End InitializeMultisigParams.

Module TransferParams.
Record t : Type := mk {
  token_program_id : PublicKey;
  source : PublicKey;
  destination : PublicKey;
  authority : PublicKey;
  signers : list PublicKey;
  amount : Z
}.
End TransferParams.

Module ApproveParams.
Record t : Type := mk {
  token_program_id : PublicKey;
  source : PublicKey;
  delegate : PublicKey;
  owner : PublicKey;
  signers : list PublicKey;
  amount : Z
}.
End ApproveParams.

Module RevokeParams.
Record t : Type := mk {
  token_program_id : PublicKey;
  source : PublicKey;
  owner : PublicKey;
  signers : list PublicKey
}.
End RevokeParams.

Module SetAuthorityParams.
Record t : Type := mk {
  authority : AuthorityType;
  new_authority : option PublicKey
}.
End SetAuthorityParams.

Module MintToParams.
Record t : Type := mk {
  token_program_id : PublicKey;
  mint : PublicKey;
  account : PublicKey;
  owner : PublicKey;
  signers : list PublicKey;
  amount : Z
}.
End MintToParams.

Module BurnParams.
Record t : Type := mk {
  token_program_id : PublicKey;
  account : PublicKey;
  mint : PublicKey;
  authority : PublicKey;
  signers : list PublicKey;
  amount : Z
}.
End BurnParams.

Module CloseAccountParams.
Record t : Type := mk {
  token_program_id : PublicKey;
  account : PublicKey;
  destination : PublicKey;
  owner : PublicKey;
  signers : list PublicKey
}.
End CloseAccountParams.

Module FreezeAccountParams.
Record t : Type := mk {
  token_program_id : PublicKey;
  account : PublicKey;
  mint : PublicKey;
  owner : PublicKey;
  signers : list PublicKey
}.
End FreezeAccountParams.

Module ThawAccountParams.
Record t : Type := mk {
  token_program_id : PublicKey;
  account : PublicKey;
  mint : PublicKey;
  owner : PublicKey;
  signers : list PublicKey
}.
End ThawAccountParams.

Module Transfer2Params.
Record t : Type := mk {
  token_program_id : PublicKey;
  mint : PublicKey;
  source : PublicKey;
  destination : PublicKey;
  authority : PublicKey;
  signers : list PublicKey;
  amount : Z;
  decimal : Z
}.
End Transfer2Params.

Module Approve2Params.
Record t : Type := mk {
  token_program_id : PublicKey;
  mint : PublicKey;
  source : PublicKey;
  delegate : PublicKey;
  owner : PublicKey;
  signers : list PublicKey;
  amount : Z;
  decimal : Z
}.
End Approve2Params.

Module MintTo2Params.
Record t : Type := mk {
  token_program_id : PublicKey;
  mint : PublicKey;
  account : PublicKey;
  owner : PublicKey;
  signers : list PublicKey;
  amount : Z;
  decimal : Z
}.
End MintTo2Params.

Module Burn2Params.
Record t : Type := mk {
  token_program_id : PublicKey;
  mint : PublicKey;
  account : PublicKey;
  owner : PublicKey;
  signers : list PublicKey;
  amount : Z;
  decimal : Z
}.
End Burn2Params.

(** [solana.instruction.InstructionLayout]: a named tuple of the index and
    the [struct] format of the fields. *)
Record InstructionLayout : Type := mkInstructionLayout { idx : Z; fmt : string }.

Definition TOKEN_INSTRUCTION_LAYOUTS : list InstructionLayout :=
  [mkInstructionLayout _INITIALIZE_MINT "B32s32s";
   mkInstructionLayout _INITIALIZE_ACCOUNT EmptyString;
   mkInstructionLayout _INITIALIZE_MULTISIG "B";
   mkInstructionLayout _TRANSFER "Q";
   mkInstructionLayout _APPROVE "Q";
   mkInstructionLayout _REVOKE EmptyString;
   mkInstructionLayout _SET_AUTHORITY "I32s";
   mkInstructionLayout _MINT_TO "Q";
   mkInstructionLayout _BURN "Q";
   mkInstructionLayout _CLOSE_ACCOUNT EmptyString;
   mkInstructionLayout _FREEZE_ACCOUNT EmptyString;
   mkInstructionLayout _THAW_ACCOUNT EmptyString;
   mkInstructionLayout _TRANSFER2 "QB";
   mkInstructionLayout _APPROVE2 "QB";
   mkInstructionLayout _MINT_TO2 "QB";
   mkInstructionLayout _BURN2 "QB"].

(** Modelled from the spec: [solana.utils.helpers.from_uint8_bytes] is not
    among the embedded sources.  Multi-byte integers are little-endian; the
    helper reads the bytes it is handed as one unsigned little-endian
    integer (the empty byte string reads as 0). *)
Definition from_uint8_bytes (uint8 : list byte) : Z := le_combine uint8.

Definition decode_instruction_layout (instruction : TransactionInstruction.t)
  : result InstructionLayout :=
  (* Slice the first 4 bytes to get the type *)
  let type_data := firstn 4 (TransactionInstruction.data instruction) in
  let type_idx := from_uint8_bytes type_data in
  if (0 <=? type_idx) && (type_idx <? Z.of_nat (length TOKEN_INSTRUCTION_LAYOUTS))
  then match nth_error TOKEN_INSTRUCTION_LAYOUTS (Z.to_nat type_idx) with
       | Some layout => Ok layout
       | None => Err IndexError
       end
  else Err (ValueError "unknown transaction instruction").

Definition decode_initialize_mint (instruction : TransactionInstruction.t)
  : result InitializeMintParams.t :=
  Err (NotImplementedError "decode_initialize_mint not implemented").

Definition decode_initialize_account (instruction : TransactionInstruction.t)
  : result InitializeAccountParams.t :=
  Err (NotImplementedError "decode_initialize_account not implemented").

Definition decode_initialize_multisig (instruction : TransactionInstruction.t)
  : result InitializeMultisigParams.t :=
  Err (NotImplementedError "decode_initialize_multisig not implemented").

Definition decode_token_transfer (instruction : TransactionInstruction.t)
  : result TransferParams.t :=
  Err (NotImplementedError "decode_token_transfer not implemented").

Definition decode_approve (instruction : TransactionInstruction.t)
  : result ApproveParams.t :=
  Err (NotImplementedError "decode_token_approve not implemented").

Definition decode_revoke (instruction : TransactionInstruction.t)
  : result RevokeParams.t :=
  Err (NotImplementedError "decode_token_revoke not implemented").

Definition decode_set_authority (instruction : TransactionInstruction.t)
  : result SetAuthorityParams.t :=
  Err (NotImplementedError "decode_set_authority not implemented").

Definition decode_mint_to (instruction : TransactionInstruction.t)
  : result MintToParams.t :=
  Err (NotImplementedError "decode_mint_to not implemented").

Definition decode_burn (instruction : TransactionInstruction.t)
  : result BurnParams.t :=
  Err (NotImplementedError "decode_burn not implemented").

Definition decode_close_account (instruction : TransactionInstruction.t)
  : result CloseAccountParams.t :=
  Err (NotImplementedError "decode_close_account not implemented").

Definition decode_thaw_account (instruction : TransactionInstruction.t)
  : result ThawAccountParams.t :=
  Err (NotImplementedError "decode_thaw_account not implemented").

Definition decode_token_transfer2 (instruction : TransactionInstruction.t)
  : result Transfer2Params.t :=
  Err (NotImplementedError "decode_transfer2 not implemented").

Definition decode_approve2 (instruction : TransactionInstruction.t)
  : result Transfer2Params.t :=
  Err (NotImplementedError "decode_approve2 not implemented").

Definition decode_mint_to2 (instruction : TransactionInstruction.t)
  : result MintTo2Params.t :=
  Err (NotImplementedError "decode_mint_to2 not implemented").

Definition decode_burn2 (instruction : TransactionInstruction.t)
  : result MintTo2Params.t :=
  Err (NotImplementedError "decode_burn2 not implemented").

End TokenProgram.

(** ** Valid parameter values *)

(** What the layout can carry: decimals in one byte, keys of 32 bytes. *)
Definition valid_initialize_mint (p : Instructions.InitializeMintParams.t)
  : Prop :=
  0 <= Instructions.InitializeMintParams.decimals p < 256 /\
  valid_pubkey (Instructions.InitializeMintParams.mint_authority p) /\
  match Instructions.InitializeMintParams.freeze_authority p with
  | Some fa => valid_pubkey fa
  | None => True
  end.

(** The signer count fits one byte, counts every listed signer, and there
    is at least one signer. *)
Definition valid_initialize_multisig
  (p : Instructions.InitializeMultisigParams.t) : Prop :=
  1 <= Instructions.InitializeMultisigParams.m p < 256 /\
  Instructions.InitializeMultisigParams.m p =
  Z.of_nat (length (Instructions.InitializeMultisigParams.signers p)).

(** The amount fits an unsigned 64-bit integer. *)
Definition valid_transfer (p : Instructions.TransferParams.t) : Prop :=
  0 <= Instructions.TransferParams.amount p < 2 ^ 64.

(** Two account lists that differ at most in their flags. *)
Definition same_addresses (ks1 ks2 : list AccountMeta.t) : Prop :=
  map AccountMeta.pubkey ks1 = map AccountMeta.pubkey ks2.

(** Two instructions that differ at most in the flags of their account
    references. *)
Definition same_up_to_flags (i1 i2 : TransactionInstruction.t) : Prop :=
  TransactionInstruction.data i1 = TransactionInstruction.data i2 /\
  TransactionInstruction.program_id i1 = TransactionInstruction.program_id i2 /\
  same_addresses (TransactionInstruction.keys i1)
    (TransactionInstruction.keys i2).

(** A call that raises [NotImplementedError] on every input. *)
Definition unsupported {A B : Type} (f : A -> result B) : Prop :=
  forall x : A,
    (exists msg, f x = Err (NotImplementedError msg)) /\
    (forall r : B, f x <> Ok r).

(** ** Concrete inputs *)
Module Examples.
Import Instructions.

(** The 32-byte key that holds [n] in little-endian order. *)
Definition key (n : Z) : PublicKey := mkPublicKey (le_split 32 n).

Definition program : PublicKey := key 100.

Definition mint_with_freeze : InitializeMintParams.t :=
  InitializeMintParams.mk 255 program (key 1) (key 2) (Some (key 3)).

Definition mint_without_freeze : InitializeMintParams.t :=
  InitializeMintParams.mk 0 program (key 1) (key 2) None.

Definition account : InitializeAccountParams.t :=
  InitializeAccountParams.mk program (key 1) (key 2) (key 3).

Definition multisig_2_of_2 : InitializeMultisigParams.t :=
  InitializeMultisigParams.mk program (key 1) [key 2; key 3] 2.

(** One signature required out of two signers. *)
Definition multisig_1_of_2 : InitializeMultisigParams.t :=
  InitializeMultisigParams.mk program (key 1) [key 2; key 3] 1.

(** What decoding the encoded [multisig_1_of_2] returns. *)
Definition multisig_1_of_2_decoded : InitializeMultisigParams.t :=
  InitializeMultisigParams.mk program (key 1) [key 3] 1.

(** An InitializeMultisig instruction with two signers, both counted. *)
Definition multisig_two_instruction : TransactionInstruction.t :=
  TransactionInstruction.mk
    [AccountMeta.mk (key 1) false true;
     AccountMeta.mk SYSVAR_RENT_PUBKEY false false;
     AccountMeta.mk (key 2) false false;
     AccountMeta.mk (key 3) false false]
    program
    [Byte.x02; Byte.x02].

(** An InitializeMultisig instruction whose signer count is 0. *)
Definition multisig_zero_instruction : TransactionInstruction.t :=
  TransactionInstruction.mk
    [AccountMeta.mk (key 1) false true;
     AccountMeta.mk SYSVAR_RENT_PUBKEY false false]
    program
    [Byte.x02; Byte.x00].

Definition transfer_single : TransferParams.t :=
  TransferParams.mk program (key 1) (key 2) (key 3) [] 0.

Definition transfer_multisig : TransferParams.t :=
  TransferParams.mk program (key 1) (key 2) (key 3) [key 4; key 5] (2 ^ 64 - 1).

Definition transfer_one : TransferParams.t :=
  TransferParams.mk program (key 1) (key 2) (key 3) [] 1.

Definition close_single : CloseAccountParams.t :=
  CloseAccountParams.mk program (key 1) (key 2) (key 3) [].

Definition close_multisig : CloseAccountParams.t :=
  CloseAccountParams.mk program (key 1) (key 2) (key 3) [key 4].

(** A Transfer-shaped buffer (discriminant 3, amount 1). *)
Definition transfer_data : list byte :=
  [Byte.x03; Byte.x01; Byte.x00; Byte.x00; Byte.x00; Byte.x00; Byte.x00;
   Byte.x00; Byte.x00].

(** A Transfer-shaped buffer with source and destination only. *)
Definition transfer_two_keys : TransactionInstruction.t :=
  TransactionInstruction.mk
    [AccountMeta.mk (key 1) false true; AccountMeta.mk (key 2) false true]
    program transfer_data.

(** A Transfer-shaped buffer with three account references. *)
Definition transfer_three_keys : TransactionInstruction.t :=
  TransactionInstruction.mk
    [AccountMeta.mk (key 1) false true; AccountMeta.mk (key 2) false true;
     AccountMeta.mk (key 3) true false]
    program transfer_data.

(** The same instruction with every flag flipped. *)
Definition transfer_three_keys_flipped : TransactionInstruction.t :=
  TransactionInstruction.mk
    [AccountMeta.mk (key 1) true false; AccountMeta.mk (key 2) true false;
     AccountMeta.mk (key 3) false true]
    program transfer_data.

(** An InitializeAccount instruction whose fourth account is not the rent
    sysvar, with bytes after the discriminant. *)
Definition account_foreign_fourth_key : TransactionInstruction.t :=
  TransactionInstruction.mk
    [AccountMeta.mk (key 1) false true; AccountMeta.mk (key 2) false false;
     AccountMeta.mk (key 3) false false; AccountMeta.mk (key 77) true true]
    program [Byte.x01; Byte.xff].

(** [transfer_three_keys] with two more bytes after the amount. *)
Definition transfer_trailing_bytes : TransactionInstruction.t :=
  TransactionInstruction.mk
    (TransactionInstruction.keys transfer_three_keys)
    program (transfer_data ++ [Byte.xff; Byte.xff]).

(** An InitializeMint instruction whose option flag is 2 and whose second
    account is not the rent sysvar. *)
Definition mint_flag_two : TransactionInstruction.t :=
  TransactionInstruction.mk
    [AccountMeta.mk (key 1) false true; AccountMeta.mk (key 77) true true]
    program
    (Byte.x00 :: Byte.x06 :: key_bytes (key 2)
     ++ [Byte.x02; Byte.x00; Byte.x00; Byte.x00] ++ key_bytes (key 3)).

End Examples.

(** ** Proof steps shared by the encoders *)

(** An encoder first builds its data: either the build fails, and so does
    the encoder, or it yields bytes [bs] (kept in [Hb]) and the encoder
    returns the instruction made of them. *)
Ltac encoder_built bs Hb :=
  destruct (Layouts.INSTRUCTIONS_LAYOUT_build _ _) as [bs|] eqn:Hb;
  [|discriminate]; cbn [bind]; intros [= <-].

(** * Properties *)

(** ** Lists and slices *)
Section ListFacts.
Context {A : Type}.

Lemma firstn_exact_app (l r : list A) (n : nat) :
  length l = n -> firstn n (l ++ r) = l.
Proof.
  intros <-. induction l as [|x l IH]; simpl.
  - now destruct r.
  - now rewrite IH.
Qed.

Lemma skipn_exact_app (l r : list A) (n : nat) :
  length l = n -> skipn n (l ++ r) = r.
Proof.
  intros <-. induction l as [|x l IH]; simpl; auto.
Qed.

Lemma fold_left_snoc {B : Type} (f : B -> A) (xs : list B) (acc : list A) :
  fold_left (fun acc x => acc ++ [f x]) xs acc = acc ++ map f xs.
Proof.
  revert acc. induction xs as [|x xs IH]; intros acc; simpl.
  - now rewrite app_nil_r.
  - rewrite IH, <- app_assoc. reflexivity.
Qed.

(** A non-empty slice from the end of [prefix ++ l] that is exactly as long
    as [l] is [l]. *)
Lemma slice_last_app (prefix l : list A) :
  l <> [] -> slice_last (length l) (prefix ++ l) = l.
Proof.
  intros Hne. unfold slice_last.
  destruct l as [|x l]; [congruence|].
  cbn [length]. rewrite length_app. cbn [length].
  replace (length prefix + S (length l) - S (length l))%nat
    with (length prefix) by lia.
  now apply skipn_exact_app.
Qed.

End ListFacts.

(** ** Field and struct round trips *)
Section ConstructFacts.
Import Construct.

Lemma build_field_size (f : field) (v : value) (bs : list byte) :
  build_field f v = Ok bs -> length bs = field_size f.
Proof.
  destruct f as [w|n], v as [z|raw]; cbn [build_field field_size];
    try discriminate.
  - destruct (andb _ _); [|discriminate].
    intros [= <-]. apply length_le_split.
  - destruct (Nat.eqb_spec (length raw) n); [|discriminate].
    now intros [= <-].
Qed.

(** Parsing what a field built gives the value back and leaves the rest of
    the stream. *)
Lemma parse_build_field (f : field) (v : value) (bs rest : list byte) :
  build_field f v = Ok bs ->
  parse_field f (bs ++ rest) = Ok (v, rest).
Proof.
  intros Hb. pose proof (build_field_size _ _ _ Hb) as Hlen.
  unfold parse_field.
  rewrite length_app, Hlen.
  replace (Nat.leb (field_size f) (field_size f + length rest)) with true
    by (symmetry; apply Nat.leb_le; lia).
  rewrite (firstn_exact_app _ _ _ Hlen), (skipn_exact_app _ _ _ Hlen).
  destruct f as [w|n], v as [z|raw]; cbn [build_field] in Hb; try discriminate.
  - destruct (andb _ _) eqn:Hrange in Hb; [|discriminate].
    injection Hb as <-.
    apply andb_true_iff in Hrange as [H0 H1].
    apply Z.leb_le in H0. apply Z.ltb_lt in H1.
    rewrite le_combine_split, Z.mod_small; [reflexivity|].
    replace (Z.of_nat w * 8) with (8 * Z.of_nat w) by lia. lia.
  - destruct (Nat.eqb (length raw) n); [|discriminate].
    now injection Hb as <-.
Qed.

Lemma parse_build_struct (s : struct) (c : container) (bs rest : list byte) :
  build_struct s c = Ok bs ->
  parse_struct s (bs ++ rest) = Ok (project s c, rest).
Proof.
  revert bs. induction s as [|[name f] s IH]; intros bs; simpl.
  - now intros [= <-].
  - destruct (lookup name c) as [v|]; [|discriminate].
    destruct (build_field f v) as [fb|e] eqn:Hf; [|discriminate]. simpl.
    destruct (build_struct s c) as [sb|e] eqn:Hs; [|discriminate]. simpl.
    intros [= <-]. rewrite <- app_assoc.
    rewrite (parse_build_field _ _ _ _ Hf). simpl.
    rewrite (IH _ eq_refl). reflexivity.
Qed.

End ConstructFacts.

(** ** The instruction layout *)
Section LayoutFacts.
Import Construct Layouts.

Lemma build_int_ok (w : nat) (z : Z) :
  0 <= z < 2 ^ (8 * Z.of_nat w) ->
  build_field (IntLE w) (VInt z) = Ok (le_split w z).
Proof.
  intros [H0 H1]. cbn [build_field].
  apply Z.leb_le in H0. apply Z.ltb_lt in H1. now rewrite H0, H1.
Qed.

Lemma build_bytes_ok (n : nat) (bs : list byte) :
  length bs = n -> build_field (Bytes n) (VBytes bs) = Ok bs.
Proof.
  intros <-. cbn [build_field]. now rewrite Nat.eqb_refl.
Qed.

Lemma discriminant_range (t : InstructionType) : 0 <= discriminant t < 16.
Proof. destruct t; cbn; lia. Qed.

(** The discriminant is emitted as one byte. *)
Lemma build_discriminant (t : InstructionType) :
  build_field Int8ul (VInt (discriminant t)) = Ok [byte.of_Z (discriminant t)].
Proof.
  unfold Int8ul. rewrite build_int_ok; [reflexivity|].
  pose proof (discriminant_range t). change (2 ^ (8 * Z.of_nat 1)) with 256. lia.
Qed.

(** Every buffer [build] emits starts with the discriminant byte of its
    kind. *)
Lemma build_starts_with_discriminant (t : InstructionType)
  (a : option container) (bs : list byte) :
  INSTRUCTIONS_LAYOUT_build t a = Ok bs ->
  exists body, bs = byte.of_Z (discriminant t) :: body.
Proof.
  unfold INSTRUCTIONS_LAYOUT_build. rewrite build_discriminant. cbn [bind].
  destruct (switch (discriminant t)) as [s|].
  - destruct a as [c|]; [|discriminate].
    destruct (build_struct s c) as [body|]; [|discriminate]. cbn [bind].
    intros [= <-]. now exists body.
  - intros [= <-]. now exists [].
Qed.

(** Parsing a built buffer (with anything after it) gives back the
    discriminant and the fields that were built. *)
Lemma parse_build_layout (t : InstructionType) (a : option container)
  (bs rest : list byte) :
  INSTRUCTIONS_LAYOUT_build t a = Ok bs ->
  INSTRUCTIONS_LAYOUT_parse (bs ++ rest) =
  Ok (mkParsed (discriminant t)
        match switch (discriminant t) with
        | None => None
        | Some s => option_map (project s) a
        end).
Proof.
  unfold INSTRUCTIONS_LAYOUT_build, INSTRUCTIONS_LAYOUT_parse.
  destruct (build_field Int8ul (VInt (discriminant t))) as [tag|] eqn:Htag;
    [|discriminate].
  cbn [bind].
  destruct (switch (discriminant t)) as [s|] eqn:Hsw.
  - destruct a as [c|]; [|discriminate].
    destruct (build_struct s c) as [body|] eqn:Hs; [|discriminate]. cbn [bind].
    intros [= <-]. rewrite <- app_assoc.
    rewrite (parse_build_field _ _ _ _ Htag). cbn [bind]. rewrite Hsw.
    rewrite (parse_build_struct _ _ _ _ Hs). reflexivity.
  - intros [= <-].
    rewrite (parse_build_field _ _ _ _ Htag). cbn [bind]. rewrite Hsw.
    reflexivity.
Qed.

Lemma parse_built (t : InstructionType) (a : option container)
  (bs : list byte) :
  INSTRUCTIONS_LAYOUT_build t a = Ok bs ->
  INSTRUCTIONS_LAYOUT_parse bs =
  Ok (mkParsed (discriminant t)
        match switch (discriminant t) with
        | None => None
        | Some s => option_map (project s) a
        end).
Proof.
  intros Hb. rewrite <- (app_nil_r bs). now apply parse_build_layout.
Qed.

(** The discriminant [parse] reports is the first byte of the buffer. *)
Lemma parse_instruction_type (data : list byte) (pd : ParsedInstruction) :
  INSTRUCTIONS_LAYOUT_parse data = Ok pd ->
  exists b rest, data = b :: rest /\ instruction_type pd = byte.unsigned b.
Proof.
  unfold INSTRUCTIONS_LAYOUT_parse, parse_field, Int8ul.
  cbn [field_size].
  destruct data as [|b rest]; [discriminate|].
  cbn [length Nat.leb firstn skipn bind].
  rewrite le_combine_1.
  destruct (switch (byte.unsigned b)) as [s|].
  - destruct (parse_struct s rest) as [[c r]|]; [|discriminate]. cbn [bind].
    intros [= <-]. now exists b, rest.
  - intros [= <-]. now exists b, rest.
Qed.

End LayoutFacts.

(** ** Validation helpers and account references *)
Section KeyFacts.
Import Validate.

Lemma validate_instruction_keys_ok (i : TransactionInstruction.t) (n : Z) :
  n <= Z.of_nat (length (TransactionInstruction.keys i)) ->
  validate_instruction_keys i n = Ok tt.
Proof.
  intros H. unfold validate_instruction_keys.
  destruct (Z.ltb_spec (Z.of_nat (length (TransactionInstruction.keys i))) n);
    [lia|reflexivity].
Qed.

Lemma validate_instruction_keys_short (i : TransactionInstruction.t) (n : Z) :
  Z.of_nat (length (TransactionInstruction.keys i)) < n ->
  validate_instruction_keys i n =
  Err (InvalidAccountCount (length (TransactionInstruction.keys i)) n).
Proof.
  intros H. unfold validate_instruction_keys.
  destruct (Z.ltb_spec (Z.of_nat (length (TransactionInstruction.keys i))) n);
    [reflexivity|lia].
Qed.

Lemma pubkeys_map_mk (s w : bool) (ks : list PublicKey) :
  Instructions.pubkeys (map (fun k => AccountMeta.mk k s w) ks) = ks.
Proof.
  unfold Instructions.pubkeys. rewrite map_map. cbn. apply map_id.
Qed.

(** What [__add_signers] appends. *)
Lemma add_signers_spec (keys : list AccountMeta.t) (owner : PublicKey)
  (signers : list PublicKey) :
  Instructions.__add_signers keys owner signers =
  keys ++
  match signers with
  | [] => [AccountMeta.mk owner true false]
  | _ :: _ =>
      AccountMeta.mk owner false false
      :: map (fun signer => AccountMeta.mk signer true false) signers
  end.
Proof.
  unfold Instructions.__add_signers. destruct signers as [|s ss]; [reflexivity|].
  rewrite fold_left_snoc, <- app_assoc. reflexivity.
Qed.

End KeyFacts.

(** ** Round trips of the implemented kinds *)
Section Roundtrip.
Import Construct Layouts Validate Instructions.
#[local] Arguments le_split : simpl never.
#[local] Arguments le_combine : simpl never.
#[local] Arguments byte.of_Z : simpl never.
#[local] Arguments Z.pow : simpl never.

(** The bytes [transfer] emits. *)
Lemma build_transfer amt : 0 <= amt < 2 ^ 64 ->
  INSTRUCTIONS_LAYOUT_build Transfer (Some [("amount"%string, VInt amt)]) =
  Ok (byte.of_Z 3 :: le_split 8 amt).
Proof.
  intros H. unfold INSTRUCTIONS_LAYOUT_build. rewrite build_discriminant.
  cbn [bind discriminant switch _AMOUNT_LAYOUT build_struct].
  change (lookup "amount" [("amount"%string, VInt amt)]) with (Some (VInt amt)).
  unfold Int64ul. rewrite build_int_ok by exact H.
  cbn [bind app]. now rewrite app_nil_r.
Qed.

(** The bytes [initialize_multisig] emits. *)
Lemma build_initialize_multisig m : 0 <= m < 256 ->
  INSTRUCTIONS_LAYOUT_build InitializeMultisig (Some [("m"%string, VInt m)]) =
  Ok [byte.of_Z 2; byte.of_Z m].
Proof.
  intros H. unfold INSTRUCTIONS_LAYOUT_build. rewrite build_discriminant.
  cbn [bind discriminant switch _INITIALIZE_MULTISIG_LAYOUT build_struct].
  change (lookup "m" [("m"%string, VInt m)]) with (Some (VInt m)).
  unfold Int8ul. rewrite build_int_ok by exact H.
  reflexivity.
Qed.

(** A kind with no field emits its discriminant only. *)
Lemma build_pass (t : InstructionType) a :
  switch (discriminant t) = None ->
  INSTRUCTIONS_LAYOUT_build t a = Ok [byte.of_Z (discriminant t)].
Proof.
  intros H. unfold INSTRUCTIONS_LAYOUT_build. rewrite build_discriminant.
  cbn [bind]. now rewrite H.
Qed.

(** The bytes [initialize_mint] emits: discriminant, decimals, mint
    authority, option flag, freeze authority slot. *)
Lemma build_initialize_mint decimals ma opt fa :
  0 <= decimals < 256 -> length ma = 32%nat -> 0 <= opt < 2 ^ 32 ->
  length fa = 32%nat ->
  INSTRUCTIONS_LAYOUT_build InitializeMint
    (Some [("decimals"%string, VInt decimals);
           ("mint_authority"%string, VBytes ma);
           ("freeze_authority_option"%string, VInt opt);
           ("freeze_authority"%string, VBytes fa)]) =
  Ok (byte.of_Z 0 :: byte.of_Z decimals :: ma ++ le_split 4 opt ++ fa).
Proof.
  intros Hd Hma Hopt Hfa. unfold INSTRUCTIONS_LAYOUT_build.
  rewrite build_discriminant.
  cbn [bind discriminant switch _INITIALIZE_MINT_LAYOUT build_struct].
  cbn [lookup String.eqb Ascii.eqb Bool.eqb].
  unfold Int8ul, Int32ul, PUBLIC_KEY_LAYOUT.
  rewrite !build_int_ok, !build_bytes_ok by assumption.
  cbn [bind app]. rewrite app_nil_r. reflexivity.
Qed.

Lemma transfer_roundtrip p :
  valid_transfer p -> bind (transfer p) decode_transfer = Ok p.
Proof.
  intros Hv. destruct p as [pid src dst auth sgn amt].
  unfold valid_transfer in Hv. cbn [TransferParams.amount] in Hv.
  unfold transfer.
  cbn [TransferParams.amount TransferParams.source TransferParams.destination
       TransferParams.authority TransferParams.signers TransferParams.program_id].
  rewrite (build_transfer _ Hv). cbn [bind].
  unfold decode_transfer. cbn [TransactionInstruction.data].
  rewrite (parse_built _ _ _ (build_transfer _ Hv)).
  rewrite add_signers_spec.
  rewrite validate_instruction_keys_ok
    by (cbn [TransactionInstruction.keys]; rewrite length_app;
        destruct sgn; cbn [length]; lia).
  destruct sgn as [|s ss]; cbn; [reflexivity|].
  now rewrite map_map, map_id.
Qed.

Lemma close_account_roundtrip p :
  bind (close_account p) decode_close_account = Ok p.
Proof.
  destruct p as [pid acct dst owner sgn].
  unfold close_account.
  cbn [CloseAccountParams.account CloseAccountParams.destination
       CloseAccountParams.owner CloseAccountParams.signers
       CloseAccountParams.program_id].
  rewrite (build_pass CloseAccount None eq_refl). cbn [bind].
  unfold decode_close_account. cbn [TransactionInstruction.data].
  rewrite (parse_built _ _ _ (build_pass CloseAccount None eq_refl)).
  rewrite add_signers_spec.
  rewrite validate_instruction_keys_ok
    by (cbn [TransactionInstruction.keys]; rewrite length_app;
        destruct sgn; cbn [length]; lia).
  destruct sgn as [|s ss]; cbn; [reflexivity|].
  now rewrite map_map, map_id.
Qed.

Lemma initialize_account_roundtrip p :
  bind (initialize_account p) decode_initialize_account = Ok p.
Proof.
  destruct p as [pid acct mint owner].
  unfold initialize_account.
  rewrite (build_pass InitializeAccount None eq_refl). cbn [bind].
  unfold decode_initialize_account. cbn [TransactionInstruction.data].
  rewrite (parse_built _ _ _ (build_pass InitializeAccount None eq_refl)).
  reflexivity.
Qed.

Lemma initialize_multisig_roundtrip p :
  valid_initialize_multisig p ->
  bind (initialize_multisig p) decode_initialize_multisig = Ok p.
Proof.
  destruct p as [pid ms sgn m]. unfold valid_initialize_multisig.
  cbn [InitializeMultisigParams.m InitializeMultisigParams.signers].
  intros [Hm Hlen].
  assert (Hm' : 0 <= m < 256) by lia.
  unfold initialize_multisig.
  cbn [InitializeMultisigParams.m InitializeMultisigParams.signers
       InitializeMultisigParams.multisig InitializeMultisigParams.program_id].
  rewrite (build_initialize_multisig _ Hm'). cbn [bind].
  rewrite fold_left_snoc.
  unfold decode_initialize_multisig. cbn [TransactionInstruction.data].
  rewrite (parse_built _ _ _ (build_initialize_multisig _ Hm')).
  cbn -[slice_last Z.add].
  rewrite validate_instruction_keys_ok
    by (cbn [TransactionInstruction.keys length]; rewrite length_map; lia).
  cbn -[slice_last].
  replace (Z.to_nat m)
    with (length (map (fun signer => AccountMeta.mk signer false false) sgn))
    by (rewrite length_map; lia).
  match goal with
  | |- context [slice_last _ (?a :: ?b :: ?l)] =>
      pose proof (slice_last_app [a; b] l) as Hslice
  end.
  cbn [app] in Hslice. rewrite Hslice.
  - now rewrite pubkeys_map_mk.
  - destruct sgn; [cbn in Hlen; lia|discriminate].
Qed.

Lemma initialize_mint_roundtrip p :
  valid_initialize_mint p ->
  bind (initialize_mint p) decode_initialize_mint = Ok p.
Proof.
  destruct p as [dec pid mint [ma] fa]. unfold valid_initialize_mint, valid_pubkey.
  cbn [InitializeMintParams.decimals InitializeMintParams.mint_authority
       InitializeMintParams.freeze_authority key_bytes].
  intros (Hd & Hma & Hfa).
  unfold initialize_mint.
  cbn [InitializeMintParams.decimals InitializeMintParams.mint_authority
       InitializeMintParams.freeze_authority InitializeMintParams.mint
       InitializeMintParams.program_id key_bytes].
  destruct fa as [[fa]|]; cbn [key_bytes] in *.
  - assert (Hb := build_initialize_mint dec ma 1 fa Hd Hma ltac:(lia) Hfa).
    rewrite Hb. cbn [bind]. unfold decode_initialize_mint.
    cbn [TransactionInstruction.data]. rewrite (parse_built _ _ _ Hb).
    reflexivity.
  - assert (Hb := build_initialize_mint dec ma 0 (repeat Byte.x00 32) Hd Hma
                    ltac:(lia) eq_refl).
    unfold PublicKey_zero. cbn [key_bytes].
    rewrite Hb. cbn [bind]. unfold decode_initialize_mint.
    cbn [TransactionInstruction.data]. rewrite (parse_built _ _ _ Hb).
    reflexivity.
Qed.
End Roundtrip.

(** ** Round trip (C1) *)
Section RoundtripClaim.
Import Construct Layouts Validate Instructions.

(** C1 (as amended).  Decoding what the encoder produced returns the
    parameters it was given, for InitializeMint (decimals in 0..255, keys of
    32 bytes, freeze authority present or absent), InitializeAccount,
    Transfer (amount in 0..2^64-1, signer list empty or not), CloseAccount
    (signer list empty or not), and for InitializeMultisig when [m] is the
    number of signers and at least 1. *)
Theorem roundtrip_implemented_kinds :
  (forall p, valid_initialize_mint p ->
     bind (initialize_mint p) decode_initialize_mint = Ok p) /\
  (forall p, bind (initialize_account p) decode_initialize_account = Ok p) /\
  (forall p, valid_initialize_multisig p ->
     bind (initialize_multisig p) decode_initialize_multisig = Ok p) /\
  (forall p, valid_transfer p -> bind (transfer p) decode_transfer = Ok p) /\
  (forall p, bind (close_account p) decode_close_account = Ok p).
Proof.
  repeat split.
  - exact initialize_mint_roundtrip.
  - exact initialize_account_roundtrip.
  - exact initialize_multisig_roundtrip.
  - exact transfer_roundtrip.
  - exact close_account_roundtrip.
Qed.

Lemma roundtrip_implemented_kinds_witness :
  bind (initialize_mint Examples.mint_with_freeze) decode_initialize_mint
    = Ok Examples.mint_with_freeze /\
  bind (initialize_mint Examples.mint_without_freeze) decode_initialize_mint
    = Ok Examples.mint_without_freeze /\
  bind (initialize_multisig Examples.multisig_2_of_2) decode_initialize_multisig
    = Ok Examples.multisig_2_of_2 /\
  bind (transfer Examples.transfer_single) decode_transfer
    = Ok Examples.transfer_single /\
  bind (transfer Examples.transfer_multisig) decode_transfer
    = Ok Examples.transfer_multisig.
Proof.
  destruct roundtrip_implemented_kinds as (Hmint & _ & Hmultisig & Htransfer & _).
  split; [|split; [|split; [|split]]].
  - apply Hmint. repeat split; cbn; lia.
  - apply Hmint. repeat split; cbn; lia.
  - apply Hmultisig. repeat split; cbn; lia.
  - apply Htransfer. unfold valid_transfer; cbn; lia.
  - apply Htransfer. unfold valid_transfer; cbn; lia.
Defined.

(** C1 (as stated) fails for InitializeMultisig: with two signers of which
    one is required ([m] = 1), decoding the encoded instruction returns the
    last signer only. *)
Lemma roundtrip_multisig_counterexample :
  bind (initialize_multisig Examples.multisig_1_of_2) decode_initialize_multisig
    = Ok Examples.multisig_1_of_2_decoded /\
  Examples.multisig_1_of_2_decoded <> Examples.multisig_1_of_2.
Proof.
  split.
  - vm_compute. reflexivity.
  - vm_compute. congruence.
Qed.
End RoundtripClaim.

(** ** Account references of the encoders (C2, C3, C4) *)
Section AccountReferences.
Import Construct Layouts Validate Instructions.

(** C2.  The shared helper appends, for an empty signer list, the
    authority alone as a signer that is not writable; for a signer list of
    N >= 1 entries, the authority as a non-signer that is not writable and
    then the N signers in input order, each a signer that is not writable.
    [transfer] and [close_account] build the tail of their account list with
    that helper, after their two leading references. *)
Theorem add_signers_convention :
  (forall keys owner,
     __add_signers keys owner [] = keys ++ [AccountMeta.mk owner true false]) /\
  (forall keys owner s ss,
     __add_signers keys owner (s :: ss) =
     keys ++ AccountMeta.mk owner false false
          :: map (fun signer => AccountMeta.mk signer true false) (s :: ss)) /\
  (forall p i, transfer p = Ok i ->
     exists k0 k1,
       TransactionInstruction.keys i =
       __add_signers [k0; k1] (TransferParams.authority p)
         (TransferParams.signers p)) /\
  (forall p i, close_account p = Ok i ->
     exists k0 k1,
       TransactionInstruction.keys i =
       __add_signers [k0; k1] (CloseAccountParams.owner p)
         (CloseAccountParams.signers p)).
Proof.
  split; [|split; [|split]].
  - intros keys owner. reflexivity.
  - intros keys owner s ss. apply add_signers_spec.
  - intros p i. unfold transfer.
    encoder_built bs Hb. cbn [TransactionInstruction.keys]. eauto.
  - intros p i. unfold close_account.
    encoder_built bs Hb. cbn [TransactionInstruction.keys]. eauto.
Qed.

Lemma add_signers_convention_witness :
  (exists i, transfer Examples.transfer_single = Ok i /\
     skipn 2 (TransactionInstruction.keys i) =
     [AccountMeta.mk (Examples.key 3) true false]) /\
  (exists i, transfer Examples.transfer_multisig = Ok i /\
     skipn 2 (TransactionInstruction.keys i) =
     [AccountMeta.mk (Examples.key 3) false false;
      AccountMeta.mk (Examples.key 4) true false;
      AccountMeta.mk (Examples.key 5) true false]) /\
  (exists i, close_account Examples.close_multisig = Ok i /\
     skipn 2 (TransactionInstruction.keys i) =
     [AccountMeta.mk (Examples.key 3) false false;
      AccountMeta.mk (Examples.key 4) true false]).
Proof.
  destruct add_signers_convention as (Hnil & Hcons & Htransfer & Hclose).
  split; [|split].
  - destruct (transfer Examples.transfer_single) as [i|e] eqn:Hi;
      [|vm_compute in Hi; discriminate].
    exists i. split; [reflexivity|].
    destruct (Htransfer _ _ Hi) as (k0 & k1 & ->).
    cbn [Examples.transfer_single TransferParams.authority TransferParams.signers].
    rewrite Hnil. reflexivity.
  - destruct (transfer Examples.transfer_multisig) as [i|e] eqn:Hi;
      [|vm_compute in Hi; discriminate].
    exists i. split; [reflexivity|].
    destruct (Htransfer _ _ Hi) as (k0 & k1 & ->).
    cbn [Examples.transfer_multisig TransferParams.authority TransferParams.signers].
    rewrite Hcons. reflexivity.
  - destruct (close_account Examples.close_multisig) as [i|e] eqn:Hi;
      [|vm_compute in Hi; discriminate].
    exists i. split; [reflexivity|].
    destruct (Hclose _ _ Hi) as (k0 & k1 & ->).
    cbn [Examples.close_multisig CloseAccountParams.owner CloseAccountParams.signers].
    rewrite Hcons. reflexivity.
Defined.

(** With a signer count of at least 1 the decoder returns the last [m]
    account addresses, in order, and needs [2 + m] account references. *)
Lemma decode_initialize_multisig_signers (i : TransactionInstruction.t)
  (p : InitializeMultisigParams.t) :
  decode_initialize_multisig i = Ok p ->
  2 + InitializeMultisigParams.m p
    <= Z.of_nat (length (TransactionInstruction.keys i)) /\
  InitializeMultisigParams.signers p =
  pubkeys (slice_last (Z.to_nat (InitializeMultisigParams.m p))
             (TransactionInstruction.keys i)).
Proof.
  unfold decode_initialize_multisig.
  destruct (INSTRUCTIONS_LAYOUT_parse _) as [pd|]; [|discriminate]. cbn [bind].
  destruct (validate_instruction_type _ _); [|discriminate]. cbn [bind].
  destruct (attr_int _ _) as [m|]; [|discriminate]. cbn [bind].
  unfold validate_instruction_keys.
  destruct (Z.ltb_spec (Z.of_nat (length (TransactionInstruction.keys i))) (2 + m));
    [discriminate|].
  cbn [bind]. destruct (key_at i 0); [|discriminate]. cbn [bind].
  intros [= <-]. cbn [InitializeMultisigParams.m InitializeMultisigParams.signers].
  split; [assumption|reflexivity].
Qed.

(** From signer count 1 on, decoding needs [2 + m] account references and
    the signer list holds the addresses of the last [m] of them, in order,
    and nothing else. *)
Theorem decode_initialize_multisig_last (i : TransactionInstruction.t)
  (p : InitializeMultisigParams.t) :
  decode_initialize_multisig i = Ok p ->
  1 <= InitializeMultisigParams.m p ->
  2 + InitializeMultisigParams.m p
    <= Z.of_nat (length (TransactionInstruction.keys i)) /\
  InitializeMultisigParams.signers p =
  pubkeys (skipn (length (TransactionInstruction.keys i)
                  - Z.to_nat (InitializeMultisigParams.m p))
             (TransactionInstruction.keys i)) /\
  length (InitializeMultisigParams.signers p) =
  Z.to_nat (InitializeMultisigParams.m p).
Proof.
  intros Hp Hm. destruct (decode_initialize_multisig_signers _ _ Hp) as [Hlen ->].
  split; [exact Hlen|].
  unfold slice_last.
  destruct (Z.to_nat (InitializeMultisigParams.m p)) as [|k] eqn:Hk; [lia|].
  split; [reflexivity|].
  unfold pubkeys. rewrite length_map, length_skipn. lia.
Qed.

Lemma decode_initialize_multisig_last_witness :
  decode_initialize_multisig Examples.multisig_two_instruction =
    Ok Examples.multisig_2_of_2 /\
  InitializeMultisigParams.signers Examples.multisig_2_of_2 =
  pubkeys (skipn 2 (TransactionInstruction.keys
                      Examples.multisig_two_instruction)).
Proof.
  assert (Hdec : decode_initialize_multisig Examples.multisig_two_instruction =
                 Ok Examples.multisig_2_of_2) by (vm_compute; reflexivity).
  split; [exact Hdec|].
  destruct (decode_initialize_multisig_last _ _ Hdec) as (_ & Hsigners & _).
  - cbn. lia.
  - exact Hsigners.
Defined.

(** C3.  At signer count 0 the decoder returns every account address of
    the instruction as a signer, the multisig account and the rent sysvar
    included, where the last 0 entries are none: Python's [keys[-0:]] is
    [keys[0:]]. *)
Theorem decode_initialize_multisig_zero_signers :
  decode_initialize_multisig Examples.multisig_zero_instruction =
  Ok (InitializeMultisigParams.mk Examples.program (Examples.key 1)
        [Examples.key 1; SYSVAR_RENT_PUBKEY] 0).
Proof. vm_compute. reflexivity. Qed.

(** C4.  [transfer] lists the destination account as read-only: its
    second account reference has [is_writable = False], for every input it
    accepts, where [close_account] marks its destination writable. *)
Theorem transfer_destination_read_only :
  (forall p,
     match transfer p with
     | Ok i =>
         firstn 2 (TransactionInstruction.keys i) =
         [AccountMeta.mk (TransferParams.source p) false true;
          AccountMeta.mk (TransferParams.destination p) false false]
     | Err _ => True
     end) /\
  (exists i, transfer Examples.transfer_single = Ok i /\
     TransactionInstruction.keys i =
     [AccountMeta.mk (Examples.key 1) false true;
      AccountMeta.mk (Examples.key 2) false false;
      AccountMeta.mk (Examples.key 3) true false]) /\
  (forall p,
     match close_account p with
     | Ok i =>
         firstn 2 (TransactionInstruction.keys i) =
         [AccountMeta.mk (CloseAccountParams.account p) false true;
          AccountMeta.mk (CloseAccountParams.destination p) false true]
     | Err _ => True
     end) /\
  (forall p,
     match initialize_mint p with
     | Ok i =>
         TransactionInstruction.keys i =
         [AccountMeta.mk (InitializeMintParams.mint p) false true;
          AccountMeta.mk SYSVAR_RENT_PUBKEY false false]
     | Err _ => True
     end).
Proof.
  split; [|split; [|split]].
  - intros p. unfold transfer.
    destruct (INSTRUCTIONS_LAYOUT_build _ _); cbn [bind]; [|exact I].
    cbn [TransactionInstruction.keys]. now rewrite add_signers_spec.
  - eexists. split; [vm_compute; reflexivity|]. reflexivity.
  - intros p. unfold close_account.
    destruct (INSTRUCTIONS_LAYOUT_build _ _); cbn [bind]; [|exact I].
    cbn [TransactionInstruction.keys]. now rewrite add_signers_spec.
  - intros p. unfold initialize_mint.
    destruct (InitializeMintParams.freeze_authority p);
      destruct (INSTRUCTIONS_LAYOUT_build _ _); cbn [bind]; exact I || reflexivity.
Qed.

End AccountReferences.

(** ** The discriminant (C5, C6) *)
Section Discriminant.
Import Construct Layouts Validate Instructions.

(** The table lists the layouts in the order of their indices. *)
Lemma layout_table_position (k : nat) :
  (k < 16)%nat ->
  exists l, nth_error TokenProgram.TOKEN_INSTRUCTION_LAYOUTS k = Some l
            /\ TokenProgram.idx l = Z.of_nat k.
Proof.
  intros H.
  do 16 (destruct k as [|k]; [eexists; split; reflexivity|]).
  lia.
Qed.

Lemma layout_table_index (n : Z) :
  0 <= n < 16 ->
  exists l, nth_error TokenProgram.TOKEN_INSTRUCTION_LAYOUTS (Z.to_nat n) = Some l
            /\ TokenProgram.idx l = n.
Proof.
  intros H. destruct (layout_table_position (Z.to_nat n)) as (l & Hl & Hidx);
    [lia|].
  exists l. split; [exact Hl|]. rewrite Hidx. lia.
Qed.

(** [decode_instruction_layout] dispatches on the little-endian value of the
    first four bytes. *)
Lemma decode_instruction_layout_spec (i : TransactionInstruction.t) :
  let n := le_combine (firstn 4 (TransactionInstruction.data i)) in
  (0 <= n < 16 ->
   exists l, TokenProgram.decode_instruction_layout i = Ok l /\
             nth_error TokenProgram.TOKEN_INSTRUCTION_LAYOUTS (Z.to_nat n) = Some l /\
             TokenProgram.idx l = n) /\
  (16 <= n ->
   TokenProgram.decode_instruction_layout i =
   Err (ValueError "unknown transaction instruction")).
Proof.
  intros n. unfold TokenProgram.decode_instruction_layout,
    TokenProgram.from_uint8_bytes. fold n.
  change (Z.of_nat (length TokenProgram.TOKEN_INSTRUCTION_LAYOUTS)) with 16.
  split.
  - intros H. destruct (layout_table_index n H) as (l & Hl & Hidx).
    exists l. rewrite Hl.
    destruct (Z.leb_spec 0 n); [|lia]. destruct (Z.ltb_spec n 16); [|lia].
    cbn [andb]. auto.
  - intros H. destruct (Z.ltb_spec n 16); [lia|].
    now rewrite andb_false_r.
Qed.

(** The first byte alone decides when the three bytes after it are zero or
    absent. *)
Lemma le_combine_first_byte (b : byte) (rest : list byte) :
  Forall (eq Byte.x00) (firstn 3 rest) ->
  le_combine (firstn 4 (b :: rest)) = byte.unsigned b.
Proof.
  intros Hz. change (firstn 4 (b :: rest)) with (b :: firstn 3 rest).
  assert (Hrep : firstn 3 rest = repeat Byte.x00 (length (firstn 3 rest))).
  { induction Hz as [|x l <- _ IH]; cbn [repeat length]; congruence. }
  rewrite Hrep. set (zeros := repeat Byte.x00 _).
  change (le_combine (b :: zeros))
    with (Z.lor (byte.unsigned b) (Z.shiftl (le_combine zeros) 8)).
  subst zeros. rewrite le_combine_0.
  now rewrite Z.shiftl_0_l, Z.lor_0_r.
Qed.

Lemma first_byte_of_build (t : InstructionType) (a : option container)
  (bs : list byte) :
  INSTRUCTIONS_LAYOUT_build t a = Ok bs ->
  hd_error bs = Some (byte.of_Z (discriminant t)).
Proof.
  intros Hb. destruct (build_starts_with_discriminant _ _ _ Hb) as [body ->].
  reflexivity.
Qed.

(** C5 (as amended).  [decode_instruction_layout] reads the first four
    bytes of the data (fewer when the buffer is shorter) as one little-endian
    integer: it returns the layout whose index is that integer when it is in
    0..15 and fails otherwise, so the byte at offset 0 selects the layout
    when the three bytes after it are zero or absent.  Every implemented
    encoder emits data whose first byte is the discriminant of its kind
    (InitializeMint 0, InitializeAccount 1, InitializeMultisig 2, Transfer 3,
    CloseAccount 9). *)
Theorem discriminant_dispatch :
  (forall i,
     0 <= le_combine (firstn 4 (TransactionInstruction.data i)) < 16 ->
     exists l, TokenProgram.decode_instruction_layout i = Ok l /\
               TokenProgram.idx l =
               le_combine (firstn 4 (TransactionInstruction.data i))) /\
  (forall i,
     16 <= le_combine (firstn 4 (TransactionInstruction.data i)) ->
     TokenProgram.decode_instruction_layout i =
     Err (ValueError "unknown transaction instruction")) /\
  (forall i b rest,
     TransactionInstruction.data i = b :: rest ->
     Forall (eq Byte.x00) (firstn 3 rest) ->
     byte.unsigned b < 16 ->
     exists l, TokenProgram.decode_instruction_layout i = Ok l /\
               TokenProgram.idx l = byte.unsigned b) /\
  (forall p i, initialize_mint p = Ok i ->
     hd_error (TransactionInstruction.data i) = Some Byte.x00) /\
  (forall p i, initialize_account p = Ok i ->
     hd_error (TransactionInstruction.data i) = Some Byte.x01) /\
  (forall p i, initialize_multisig p = Ok i ->
     hd_error (TransactionInstruction.data i) = Some Byte.x02) /\
  (forall p i, transfer p = Ok i ->
     hd_error (TransactionInstruction.data i) = Some Byte.x03) /\
  (forall p i, close_account p = Ok i ->
     hd_error (TransactionInstruction.data i) = Some Byte.x09).
Proof.
  split; [|split; [|split; [|repeat split]]].
  - intros i H. destruct (proj1 (decode_instruction_layout_spec i) H)
      as (l & Hl & _ & Hidx). eauto.
  - intros i H. exact (proj2 (decode_instruction_layout_spec i) H).
  - intros i b rest Hdata Hzero Hb.
    pose proof (le_combine_first_byte b rest Hzero) as Hle.
    pose proof (byte.unsigned_range b) as Hrange.
    destruct (proj1 (decode_instruction_layout_spec i)) as (l & Hl & _ & Hidx).
    { rewrite Hdata, Hle. lia. }
    exists l. split; [exact Hl|]. now rewrite Hidx, Hdata, Hle.
  - intros p i. unfold initialize_mint.
    destruct (InitializeMintParams.freeze_authority p);
      encoder_built bs Hb; exact (first_byte_of_build _ _ _ Hb).
  - intros p i. unfold initialize_account.
    encoder_built bs Hb. exact (first_byte_of_build _ _ _ Hb).
  - intros p i. unfold initialize_multisig.
    encoder_built bs Hb. exact (first_byte_of_build _ _ _ Hb).
  - intros p i. unfold transfer.
    encoder_built bs Hb. exact (first_byte_of_build _ _ _ Hb).
  - intros p i. unfold close_account.
    encoder_built bs Hb. exact (first_byte_of_build _ _ _ Hb).
Qed.

Lemma discriminant_dispatch_witness :
  (exists l, TokenProgram.decode_instruction_layout
               (TransactionInstruction.mk [] Examples.program
                  [Byte.x09; Byte.x00; Byte.x00; Byte.x00]) = Ok l /\
             TokenProgram.idx l = 9) /\
  (exists l, TokenProgram.decode_instruction_layout
               (TransactionInstruction.mk [] Examples.program [Byte.x01]) = Ok l /\
             TokenProgram.idx l = 1) /\
  TokenProgram.decode_instruction_layout
    (TransactionInstruction.mk [] Examples.program [Byte.x10]) =
  Err (ValueError "unknown transaction instruction") /\
  (exists i, transfer Examples.transfer_one = Ok i /\
     hd_error (TransactionInstruction.data i) = Some Byte.x03).
Proof.
  destruct discriminant_dispatch
    as (Hin & Hout & Hbyte & _ & _ & _ & Htransfer & _).
  split; [|split; [|split]].
  - apply Hin. vm_compute. split; congruence.
  - apply (Hbyte _ Byte.x01 []); [reflexivity|constructor|reflexivity].
  - apply Hout. vm_compute. congruence.
  - destruct (transfer Examples.transfer_one) as [i|e] eqn:Hi;
      [|vm_compute in Hi; discriminate].
    exists i. split; [reflexivity|]. exact (Htransfer _ _ Hi).
Defined.

(** C5 (as stated) fails: the instruction [transfer] emits for amount 1
    starts with byte 3, and [decode_instruction_layout] rejects it, because
    the first byte of the amount is among the four bytes it reads. *)
Lemma discriminant_dispatch_counterexample :
  exists i, transfer Examples.transfer_one = Ok i /\
    hd_error (TransactionInstruction.data i) = Some Byte.x03 /\
    TokenProgram.decode_instruction_layout i =
    Err (ValueError "unknown transaction instruction").
Proof.
  eexists. split; [vm_compute; reflexivity|]. split; vm_compute; reflexivity.
Qed.

End Discriminant.

(** ** Order of the decoders' checks (C6, C9) *)
Section DecoderChecks.
Import Construct Layouts Validate Instructions.

Lemma validate_instruction_type_mismatch (pd : ParsedInstruction)
  (t : InstructionType) :
  instruction_type pd <> discriminant t ->
  validate_instruction_type pd t =
  Err (WrongInstructionType (discriminant t) (instruction_type pd)).
Proof.
  intros H. unfold validate_instruction_type.
  destruct (Z.eqb_spec (instruction_type pd) (discriminant t)); congruence.
Qed.

(** A parse that succeeds on a buffer whose first byte is not the expected
    discriminant is rejected by the type check, with both numbers. *)
Lemma parse_then_type_mismatch (data rest : list byte) (b : byte)
  (t : InstructionType) :
  data = b :: rest ->
  is_ok (INSTRUCTIONS_LAYOUT_parse data) = true ->
  byte.unsigned b <> discriminant t ->
  exists pd, INSTRUCTIONS_LAYOUT_parse data = Ok pd /\
    validate_instruction_type pd t =
    Err (WrongInstructionType (discriminant t) (byte.unsigned b)).
Proof.
  intros Hdata Hok Hne.
  destruct (INSTRUCTIONS_LAYOUT_parse data) as [pd|] eqn:Hp; [|discriminate].
  exists pd. split; [reflexivity|].
  destruct (parse_instruction_type _ _ Hp) as (b' & rest' & Hd & Hty).
  assert (b' = b) by congruence. subst b'.
  rewrite <- Hty. apply validate_instruction_type_mismatch. congruence.
Qed.

(** C6 (as amended).  The decoders of InitializeMint, InitializeAccount,
    Transfer and CloseAccount check the number of account references first:
    with fewer than the kind's minimum (2, 4, 3, 3) they fail with
    [InvalidAccountCount], whatever the data holds.  With enough account
    references and data that parses, a first byte that differs from the
    expected discriminant makes them fail with [WrongInstructionType],
    carrying the expected and the actual discriminant. *)
Theorem decoders_check_keys_then_type :
  (forall i,
     Z.of_nat (length (TransactionInstruction.keys i)) < 2 ->
     decode_initialize_mint i =
     Err (InvalidAccountCount (length (TransactionInstruction.keys i)) 2)) /\
  (forall i,
     Z.of_nat (length (TransactionInstruction.keys i)) < 4 ->
     decode_initialize_account i =
     Err (InvalidAccountCount (length (TransactionInstruction.keys i)) 4)) /\
  (forall i,
     Z.of_nat (length (TransactionInstruction.keys i)) < 3 ->
     decode_transfer i =
     Err (InvalidAccountCount (length (TransactionInstruction.keys i)) 3)) /\
  (forall i,
     Z.of_nat (length (TransactionInstruction.keys i)) < 3 ->
     decode_close_account i =
     Err (InvalidAccountCount (length (TransactionInstruction.keys i)) 3)) /\
  (forall i b rest,
     TransactionInstruction.data i = b :: rest ->
     is_ok (INSTRUCTIONS_LAYOUT_parse (TransactionInstruction.data i)) = true ->
     (2 <= Z.of_nat (length (TransactionInstruction.keys i)) ->
      byte.unsigned b <> 0 ->
      decode_initialize_mint i =
      Err (WrongInstructionType 0 (byte.unsigned b))) /\
     (4 <= Z.of_nat (length (TransactionInstruction.keys i)) ->
      byte.unsigned b <> 1 ->
      decode_initialize_account i =
      Err (WrongInstructionType 1 (byte.unsigned b))) /\
     (3 <= Z.of_nat (length (TransactionInstruction.keys i)) ->
      byte.unsigned b <> 3 ->
      decode_transfer i = Err (WrongInstructionType 3 (byte.unsigned b))) /\
     (3 <= Z.of_nat (length (TransactionInstruction.keys i)) ->
      byte.unsigned b <> 9 ->
      decode_close_account i =
      Err (WrongInstructionType 9 (byte.unsigned b)))).
Proof.
  split; [|split; [|split; [|split]]].
  - intros i H. unfold decode_initialize_mint.
    now rewrite (validate_instruction_keys_short i 2 H).
  - intros i H. unfold decode_initialize_account.
    now rewrite (validate_instruction_keys_short i 4 H).
  - intros i H. unfold decode_transfer.
    now rewrite (validate_instruction_keys_short i 3 H).
  - intros i H. unfold decode_close_account.
    now rewrite (validate_instruction_keys_short i 3 H).
  - intros i b rest Hdata Hok.
    split; [|split; [|split]]; intros Hkeys Hne.
    + destruct (parse_then_type_mismatch _ _ _ InitializeMint Hdata Hok Hne)
        as (pd & Hp & Hty).
      unfold decode_initialize_mint.
      rewrite (validate_instruction_keys_ok i 2 Hkeys), Hp. cbn [bind].
      now rewrite Hty.
    + destruct (parse_then_type_mismatch _ _ _ InitializeAccount Hdata Hok Hne)
        as (pd & Hp & Hty).
      unfold decode_initialize_account.
      rewrite (validate_instruction_keys_ok i 4 Hkeys), Hp. cbn [bind].
      now rewrite Hty.
    + destruct (parse_then_type_mismatch _ _ _ Transfer Hdata Hok Hne)
        as (pd & Hp & Hty).
      unfold decode_transfer.
      rewrite (validate_instruction_keys_ok i 3 Hkeys), Hp. cbn [bind].
      now rewrite Hty.
    + destruct (parse_then_type_mismatch _ _ _ CloseAccount Hdata Hok Hne)
        as (pd & Hp & Hty).
      unfold decode_close_account.
      rewrite (validate_instruction_keys_ok i 3 Hkeys), Hp. cbn [bind].
      now rewrite Hty.
Qed.

Lemma decoders_check_keys_then_type_witness :
  decode_close_account Examples.transfer_three_keys =
    Err (WrongInstructionType 9 3) /\
  decode_initialize_mint Examples.transfer_three_keys =
    Err (WrongInstructionType 0 3) /\
  decode_initialize_account Examples.transfer_three_keys =
    Err (InvalidAccountCount 3 4) /\
  decode_transfer Examples.transfer_two_keys =
    Err (InvalidAccountCount 2 3).
Proof.
  destruct decoders_check_keys_then_type
    as (_ & Haccount & Htransfer & _ & Htype).
  destruct (Htype Examples.transfer_three_keys Byte.x03
              (tl Examples.transfer_data) eq_refl eq_refl)
    as (Hmint & _ & _ & Hclose).
  split; [|split; [|split]].
  - apply Hclose; cbn; lia.
  - apply Hmint; cbn; lia.
  - apply (Haccount Examples.transfer_three_keys). cbn; lia.
  - apply (Htransfer Examples.transfer_two_keys). cbn; lia.
Defined.

(** C6 (as stated) fails: a Transfer-shaped buffer (first byte 3) with two
    account references, handed to the CloseAccount decoder (discriminant 9),
    fails with [InvalidAccountCount] and not with [WrongInstructionType]. *)
Lemma decoders_check_keys_first_counterexample :
  hd_error (TransactionInstruction.data Examples.transfer_two_keys)
    = Some Byte.x03 /\
  discriminant CloseAccount = 9 /\
  decode_close_account Examples.transfer_two_keys =
    Err (InvalidAccountCount 2 3).
Proof. repeat split. Qed.

(** C9.  With fewer than three account references (two in particular)
    [decode_transfer] fails with [InvalidAccountCount]; whenever it returns
    parameters the instruction holds at least three account references. *)
Theorem decode_transfer_needs_three_keys (i : TransactionInstruction.t) :
  (length (TransactionInstruction.keys i) = 2%nat ->
   decode_transfer i = Err (InvalidAccountCount 2 3)) /\
  ((length (TransactionInstruction.keys i) < 3)%nat ->
   decode_transfer i =
   Err (InvalidAccountCount (length (TransactionInstruction.keys i)) 3)) /\
  (forall p, decode_transfer i = Ok p ->
     (3 <= length (TransactionInstruction.keys i))%nat).
Proof.
  assert (Hshort : (length (TransactionInstruction.keys i) < 3)%nat ->
            decode_transfer i =
            Err (InvalidAccountCount (length (TransactionInstruction.keys i)) 3)).
  { intros H. unfold decode_transfer.
    rewrite validate_instruction_keys_short by lia. reflexivity. }
  split; [|split].
  - intros H. rewrite Hshort by lia. now rewrite H.
  - exact Hshort.
  - intros p Hp.
    destruct (Nat.lt_ge_cases (length (TransactionInstruction.keys i)) 3)
      as [Hlt|Hge]; [|exact Hge].
    rewrite (Hshort Hlt) in Hp. discriminate.
Qed.

Lemma decode_transfer_needs_three_keys_witness :
  decode_transfer Examples.transfer_two_keys = Err (InvalidAccountCount 2 3) /\
  (3 <= length (TransactionInstruction.keys Examples.transfer_three_keys))%nat.
Proof.
  split.
  - apply (proj1 (decode_transfer_needs_three_keys Examples.transfer_two_keys)).
    reflexivity.
  - apply (proj2 (proj2 (decode_transfer_needs_three_keys
                           Examples.transfer_three_keys))
             (TransferParams.mk Examples.program (Examples.key 1)
                (Examples.key 2) (Examples.key 3) [] 1)).
    vm_compute. reflexivity.
Defined.

End DecoderChecks.

(** ** The optional freeze authority (C7) *)
Section OptionalField.
Import Construct Layouts Validate Instructions.
#[local] Arguments le_split : simpl never.
#[local] Arguments le_combine : simpl never.
#[local] Arguments byte.of_Z : simpl never.
#[local] Arguments Z.pow : simpl never.

(** Parsing a field off the front of a stream. *)
Lemma parse_field_app (f : field) (raw rest : list byte) :
  length raw = field_size f ->
  parse_field f (raw ++ rest) =
  Ok (match f with
      | IntLE _ => VInt (le_combine raw)
      | Bytes _ => VBytes raw
      end, rest).
Proof.
  intros Hlen. unfold parse_field. rewrite length_app, Hlen.
  replace (Nat.leb (field_size f) (field_size f + length rest)) with true
    by (symmetry; apply Nat.leb_le; lia).
  now rewrite (firstn_exact_app _ _ _ Hlen), (skipn_exact_app _ _ _ Hlen).
Qed.

(** Parsing an InitializeMint buffer: the fields at their offsets. *)
Lemma parse_initialize_mint (dec : byte) (ma flag fa rest : list byte) :
  length ma = 32%nat -> length flag = 4%nat -> length fa = 32%nat ->
  INSTRUCTIONS_LAYOUT_parse (Byte.x00 :: dec :: ma ++ flag ++ fa ++ rest) =
  Ok (mkParsed 0
        (Some [("decimals"%string, VInt (byte.unsigned dec));
               ("mint_authority"%string, VBytes ma);
               ("freeze_authority_option"%string, VInt (le_combine flag));
               ("freeze_authority"%string, VBytes fa)])).
Proof.
  intros Hma Hflag Hfa.
  unfold INSTRUCTIONS_LAYOUT_parse.
  change (Byte.x00 :: dec :: ma ++ flag ++ fa ++ rest)
    with ([Byte.x00] ++ [dec] ++ ma ++ flag ++ fa ++ rest).
  rewrite (parse_field_app Int8ul [Byte.x00]) by reflexivity.
  cbn [bind Int8ul]. rewrite le_combine_1.
  change (byte.unsigned Byte.x00) with 0.
  cbn [switch _INITIALIZE_MINT_LAYOUT parse_struct].
  rewrite (parse_field_app Int8ul [dec]) by reflexivity. cbn [bind Int8ul].
  rewrite (parse_field_app PUBLIC_KEY_LAYOUT ma) by exact Hma.
  cbn [bind PUBLIC_KEY_LAYOUT].
  rewrite (parse_field_app Int32ul flag) by exact Hflag. cbn [bind Int32ul].
  rewrite (parse_field_app PUBLIC_KEY_LAYOUT fa) by exact Hfa.
  cbn [bind PUBLIC_KEY_LAYOUT].
  rewrite le_combine_1. reflexivity.
Qed.

(** C7.  [initialize_mint] without a freeze authority emits, after the
    discriminant, the decimals and the mint authority, a 4-byte zero option
    flag and 32 zero bytes.  Decoding an InitializeMint buffer whose option
    flag is zero returns no freeze authority, whatever the 32 bytes after
    the flag hold.  With a freeze authority the flag is 1 (little-endian in
    4 bytes), the key follows byte for byte, and decoding returns the
    parameters that were encoded. *)
Theorem freeze_authority_option_encoding :
  (forall p,
     valid_initialize_mint p ->
     InitializeMintParams.freeze_authority p = None ->
     exists i, initialize_mint p = Ok i /\
       TransactionInstruction.data i =
       Byte.x00 :: byte.of_Z (InitializeMintParams.decimals p)
       :: key_bytes (InitializeMintParams.mint_authority p)
       ++ repeat Byte.x00 4 ++ repeat Byte.x00 32) /\
  (forall i dec ma fa rest,
     length ma = 32%nat -> length fa = 32%nat ->
     2 <= Z.of_nat (length (TransactionInstruction.keys i)) ->
     TransactionInstruction.data i =
     Byte.x00 :: dec :: ma ++ repeat Byte.x00 4 ++ fa ++ rest ->
     exists mint, key_at i 0 = Ok mint /\
       decode_initialize_mint i =
       Ok (InitializeMintParams.mk (byte.unsigned dec)
             (TransactionInstruction.program_id i) mint (mkPublicKey ma)
             None)) /\
  (forall p fa,
     valid_initialize_mint p ->
     InitializeMintParams.freeze_authority p = Some fa ->
     exists i, initialize_mint p = Ok i /\
       TransactionInstruction.data i =
       Byte.x00 :: byte.of_Z (InitializeMintParams.decimals p)
       :: key_bytes (InitializeMintParams.mint_authority p)
       ++ [Byte.x01; Byte.x00; Byte.x00; Byte.x00] ++ key_bytes fa /\
       decode_initialize_mint i = Ok p).
Proof.
  split; [|split].
  - intros [dec pid mint ma fa] (Hd & Hma & _) Hnone.
    cbn [InitializeMintParams.decimals InitializeMintParams.mint_authority
         InitializeMintParams.freeze_authority] in *.
    subst fa. unfold initialize_mint.
    cbn [InitializeMintParams.decimals InitializeMintParams.mint_authority
         InitializeMintParams.freeze_authority InitializeMintParams.mint
         InitializeMintParams.program_id].
    unfold PublicKey_zero. cbn [key_bytes].
    rewrite (build_initialize_mint dec (key_bytes ma) 0 (repeat Byte.x00 32)
               Hd Hma ltac:(lia) eq_refl).
    cbn [bind]. eexists. split; [reflexivity|]. reflexivity.
  - intros i dec ma fa rest Hma Hfa Hkeys Hdata.
    unfold decode_initialize_mint.
    rewrite (validate_instruction_keys_ok i 2 Hkeys), Hdata.
    rewrite (parse_initialize_mint dec ma (repeat Byte.x00 4) fa rest Hma
               eq_refl Hfa).
    cbn [bind]. change (le_combine (repeat Byte.x00 4)) with 0.
    unfold key_at.
    destruct (TransactionInstruction.keys i) as [|k0 ks] eqn:Hks;
      [cbn [length] in Hkeys; lia|].
    cbn. exists (AccountMeta.pubkey k0). split; reflexivity.
  - intros [dec pid mint ma fa'] fa (Hd & Hma & Hfa) Hsome.
    cbn [InitializeMintParams.decimals InitializeMintParams.mint_authority
         InitializeMintParams.freeze_authority] in *.
    subst fa'.
    pose proof (initialize_mint_roundtrip
                  (InitializeMintParams.mk dec pid mint ma (Some fa))
                  (conj Hd (conj Hma Hfa))) as Hround.
    revert Hround. unfold initialize_mint.
    cbn [InitializeMintParams.decimals InitializeMintParams.mint_authority
         InitializeMintParams.freeze_authority InitializeMintParams.mint
         InitializeMintParams.program_id].
    rewrite (build_initialize_mint dec (key_bytes ma) 1 (key_bytes fa)
               Hd Hma ltac:(lia) Hfa).
    cbn [bind]. intros Hround. eexists. split; [reflexivity|].
    split; [reflexivity|exact Hround].
Qed.

Lemma freeze_authority_option_encoding_witness :
  (exists i, initialize_mint Examples.mint_without_freeze = Ok i /\
     skipn 34 (TransactionInstruction.data i) = repeat Byte.x00 36) /\
  (exists i, initialize_mint Examples.mint_with_freeze = Ok i /\
     firstn 4 (skipn 34 (TransactionInstruction.data i)) =
       [Byte.x01; Byte.x00; Byte.x00; Byte.x00] /\
     skipn 38 (TransactionInstruction.data i) = key_bytes (Examples.key 3) /\
     decode_initialize_mint i = Ok Examples.mint_with_freeze).
Proof.
  destruct freeze_authority_option_encoding as (Hnone & _ & Hsome).
  split.
  - destruct (Hnone Examples.mint_without_freeze) as (i & Hi & Hdata).
    + repeat split; cbn; lia.
    + reflexivity.
    + exists i. split; [exact Hi|]. rewrite Hdata. reflexivity.
  - destruct (Hsome Examples.mint_with_freeze (Examples.key 3))
      as (i & Hi & Hdata & Hdec).
    + repeat split; cbn; lia.
    + reflexivity.
    + exists i. split; [exact Hi|]. rewrite Hdata.
      split; [reflexivity|]. split; [reflexivity|exact Hdec].
Defined.

End OptionalField.

(** ** Kinds without an implementation (C8) *)
Section Unsupported.
Import Instructions.

(** A function that is [NotImplementedError] on every input is
    [unsupported]. *)
Lemma raises_unsupported {A B : Type} (f : A -> result B) (msg : string) :
  (forall x, f x = Err (NotImplementedError msg)) -> unsupported f.
Proof.
  intros Hf x. split.
  - exists msg. apply Hf.
  - intros r. rewrite Hf. discriminate.
Qed.

(** C8.  Every encoder and decoder of [spl/token/instructions.py] whose
    logic is absent (approve, revoke, set_authority, mint_to, burn,
    freeze_account, thaw_account and the four checked variants; the decoders
    of the same kinds that the module defines), and every decoder of
    [solana/token_program.py], raises [NotImplementedError] on every input
    and returns no parameter structure or instruction. *)
Theorem unimplemented_kinds_raise :
  (unsupported approve /\ unsupported revoke /\ unsupported set_authority /\
   unsupported mint_to /\ unsupported burn /\ unsupported freeze_account /\
   unsupported thaw_account /\ unsupported transfer2 /\ unsupported approve2 /\
   unsupported mint_to2 /\ unsupported burn2) /\
  (unsupported decode_approve /\ unsupported decode_revoke /\
   unsupported decode_set_authority /\ unsupported decode_mint_to /\
   unsupported decode_burn /\ unsupported decode_thaw_account /\
   unsupported decode_transfer2 /\ unsupported decode_approve2 /\
   unsupported decode_mint_to2 /\ unsupported decode_burn2) /\
  (unsupported TokenProgram.decode_initialize_mint /\
   unsupported TokenProgram.decode_initialize_account /\
   unsupported TokenProgram.decode_initialize_multisig /\
   unsupported TokenProgram.decode_token_transfer /\
   unsupported TokenProgram.decode_approve /\
   unsupported TokenProgram.decode_revoke /\
   unsupported TokenProgram.decode_set_authority /\
   unsupported TokenProgram.decode_mint_to /\
   unsupported TokenProgram.decode_burn /\
   unsupported TokenProgram.decode_close_account /\
   unsupported TokenProgram.decode_thaw_account /\
   unsupported TokenProgram.decode_token_transfer2 /\
   unsupported TokenProgram.decode_approve2 /\
   unsupported TokenProgram.decode_mint_to2 /\
   unsupported TokenProgram.decode_burn2).
Proof.
  repeat match goal with
         | |- _ /\ _ => split
         | |- unsupported _ => eapply raises_unsupported; intros x; reflexivity
         end.
Qed.

(** The messages tell the calls apart. *)
Lemma unimplemented_messages (i : TransactionInstruction.t)
  (p : ApproveParams.t) :
  approve p = Err (NotImplementedError "approve not implemented") /\
  decode_approve i =
  Err (NotImplementedError "decode_token_approve not implemented").
Proof. split; reflexivity. Qed.

End Unsupported.

(** ** The decoders ignore the account flags (C10) *)
Section FlagIndependence.
Import Construct Layouts Validate Instructions.

Lemma same_addresses_length (ks1 ks2 : list AccountMeta.t) :
  same_addresses ks1 ks2 -> length ks1 = length ks2.
Proof.
  unfold same_addresses. intros H.
  rewrite <- (length_map AccountMeta.pubkey ks1), H. apply length_map.
Qed.

Lemma same_addresses_skipn (n : nat) (ks1 ks2 : list AccountMeta.t) :
  same_addresses ks1 ks2 -> pubkeys (skipn n ks1) = pubkeys (skipn n ks2).
Proof.
  unfold same_addresses, pubkeys. intros H.
  now rewrite <- !skipn_map, H.
Qed.

Lemma same_addresses_slice_last (n : nat) (ks1 ks2 : list AccountMeta.t) :
  same_addresses ks1 ks2 ->
  pubkeys (slice_last n ks1) = pubkeys (slice_last n ks2).
Proof.
  intros H. unfold slice_last. destruct n as [|n].
  - exact H.
  - rewrite (same_addresses_length _ _ H). now apply same_addresses_skipn.
Qed.

Section SameUpToFlags.
Variables i1 i2 : TransactionInstruction.t.
Hypothesis Hsame : same_up_to_flags i1 i2.

Lemma same_validate_keys (n : Z) :
  validate_instruction_keys i1 n = validate_instruction_keys i2 n.
Proof.
  destruct Hsame as (_ & _ & Hk). unfold validate_instruction_keys.
  now rewrite (same_addresses_length _ _ Hk).
Qed.

Lemma same_key_at (n : nat) : key_at i1 n = key_at i2 n.
Proof.
  destruct Hsame as (_ & _ & Hk). unfold key_at, same_addresses in *.
  assert (Hn : option_map AccountMeta.pubkey
                 (nth_error (TransactionInstruction.keys i1) n) =
               option_map AccountMeta.pubkey
                 (nth_error (TransactionInstruction.keys i2) n)).
  { rewrite <- !nth_error_map. now rewrite Hk. }
  destruct (nth_error (TransactionInstruction.keys i1) n),
           (nth_error (TransactionInstruction.keys i2) n);
    cbn in Hn; congruence.
Qed.

Lemma same_decode_initialize_mint :
  decode_initialize_mint i1 = decode_initialize_mint i2.
Proof.
  unfold decode_initialize_mint.
  destruct Hsame as (Hd & Hp & Hk).
  now rewrite same_validate_keys, Hd, Hp, same_key_at.
Qed.

Lemma same_decode_initialize_account :
  decode_initialize_account i1 = decode_initialize_account i2.
Proof.
  unfold decode_initialize_account.
  destruct Hsame as (Hd & Hp & Hk).
  now rewrite same_validate_keys, Hd, Hp, !same_key_at.
Qed.

Lemma same_decode_initialize_multisig :
  decode_initialize_multisig i1 = decode_initialize_multisig i2.
Proof.
  unfold decode_initialize_multisig.
  destruct Hsame as (Hd & Hp & Hk). rewrite Hd, Hp.
  destruct (INSTRUCTIONS_LAYOUT_parse _) as [pd|]; [|reflexivity]. cbn [bind].
  destruct (validate_instruction_type _ _); [|reflexivity]. cbn [bind].
  destruct (attr_int _ _) as [m|]; [|reflexivity]. cbn [bind].
  now rewrite same_validate_keys, same_key_at,
    (same_addresses_slice_last _ _ _ Hk).
Qed.

Lemma same_decode_transfer : decode_transfer i1 = decode_transfer i2.
Proof.
  unfold decode_transfer.
  destruct Hsame as (Hd & Hp & Hk).
  now rewrite same_validate_keys, Hd, Hp, !same_key_at,
    (same_addresses_skipn _ _ _ Hk).
Qed.

Lemma same_decode_close_account :
  decode_close_account i1 = decode_close_account i2.
Proof.
  unfold decode_close_account.
  destruct Hsame as (Hd & Hp & Hk).
  now rewrite same_validate_keys, Hd, Hp, !same_key_at,
    (same_addresses_skipn _ _ _ Hk).
Qed.

End SameUpToFlags.

(** C10.  Two instructions with the same data, the same program id and
    the same account addresses in the same order, whatever their
    [is_signer] and [is_writable] flags, get the same result from every
    implemented decoder: the same parameters, or the same error. *)
Theorem decoders_ignore_flags (i1 i2 : TransactionInstruction.t) :
  same_up_to_flags i1 i2 ->
  decode_initialize_mint i1 = decode_initialize_mint i2 /\
  decode_initialize_account i1 = decode_initialize_account i2 /\
  decode_initialize_multisig i1 = decode_initialize_multisig i2 /\
  decode_transfer i1 = decode_transfer i2 /\
  decode_close_account i1 = decode_close_account i2.
Proof.
  intros H. split; [|split; [|split; [|split]]].
  - now apply same_decode_initialize_mint.
  - now apply same_decode_initialize_account.
  - now apply same_decode_initialize_multisig.
  - now apply same_decode_transfer.
  - now apply same_decode_close_account.
Qed.

Lemma decoders_ignore_flags_witness :
  Examples.transfer_three_keys <> Examples.transfer_three_keys_flipped /\
  decode_transfer Examples.transfer_three_keys_flipped =
    Ok Examples.transfer_one /\
  decode_transfer Examples.transfer_three_keys =
    decode_transfer Examples.transfer_three_keys_flipped.
Proof.
  split; [discriminate|]. split; [vm_compute; reflexivity|].
  apply (decoders_ignore_flags Examples.transfer_three_keys
           Examples.transfer_three_keys_flipped).
  repeat split.
Defined.

End FlagIndependence.

(** * Further properties of the codec *)

(** ** What a successful parse says about the buffer *)
Section ParseInversion.
Import Construct Layouts Validate Instructions.

(** The value a field reads off raw bytes. *)
Lemma parse_field_inv (f : field) (stream rest : list byte) (v : value) :
  parse_field f stream = Ok (v, rest) ->
  exists raw, stream = raw ++ rest /\ length raw = field_size f /\
    v = match f with
        | IntLE _ => VInt (le_combine raw)
        | Bytes _ => VBytes raw
        end.
Proof.
  unfold parse_field.
  destruct (Nat.leb_spec (field_size f) (length stream)) as [Hle|]; [|discriminate].
  intros [= <- <-]. exists (firstn (field_size f) stream).
  rewrite firstn_skipn, length_firstn. repeat split. lia.
Qed.

(** A buffer that parses is not empty; its first byte is the discriminant
    and selects the layout of the bytes after it. *)
Lemma parse_inv (data : list byte) (pd : ParsedInstruction) :
  INSTRUCTIONS_LAYOUT_parse data = Ok pd ->
  exists b rest,
    data = b :: rest /\ instruction_type pd = byte.unsigned b /\
    match switch (byte.unsigned b) with
    | None => args pd = None
    | Some s => exists c r, parse_struct s rest = Ok (c, r) /\ args pd = Some c
    end.
Proof.
  unfold INSTRUCTIONS_LAYOUT_parse, parse_field, Int8ul. cbn [field_size].
  destruct data as [|b rest]; [discriminate|].
  cbn [length Nat.leb firstn skipn bind]. rewrite le_combine_1.
  destruct (switch (byte.unsigned b)) as [s|] eqn:Hsw.
  - destruct (parse_struct s rest) as [[c r]|] eqn:Hs; [|discriminate].
    cbn [bind]. intros [= <-]. exists b, rest. rewrite Hsw. cbn. eauto 6.
  - intros [= <-]. exists b, rest. rewrite Hsw. auto.
Qed.

(** A byte is its unsigned value. *)
Lemma byte_of_unsigned (b : byte) (z : Z) :
  byte.unsigned b = z -> b = byte.of_Z z.
Proof. intros <-. now rewrite byte.of_Z_unsigned. Qed.

(** The type check passes exactly on the expected discriminant. *)
Lemma validate_instruction_type_ok (pd : ParsedInstruction)
  (t : InstructionType) :
  validate_instruction_type pd t = Ok tt ->
  instruction_type pd = discriminant t.
Proof.
  unfold validate_instruction_type.
  destruct (Z.eqb_spec (instruction_type pd) (discriminant t)); [auto|discriminate].
Qed.

(** The key-count check passes exactly on a list that is long enough. *)
Lemma validate_instruction_keys_inv (i : TransactionInstruction.t) (n : Z) :
  validate_instruction_keys i n = Ok tt ->
  n <= Z.of_nat (length (TransactionInstruction.keys i)).
Proof.
  unfold validate_instruction_keys.
  destruct (Z.ltb_spec (Z.of_nat (length (TransactionInstruction.keys i))) n);
    [discriminate|auto].
Qed.

(** A buffer that parses as a kind with no field: its first byte, and no
    arguments. *)
Lemma parse_pass (b : byte) (rest : list byte) :
  switch (byte.unsigned b) = None ->
  INSTRUCTIONS_LAYOUT_parse (b :: rest) = Ok (mkParsed (byte.unsigned b) None).
Proof.
  intros Hsw. unfold INSTRUCTIONS_LAYOUT_parse, parse_field, Int8ul.
  cbn [field_size length Nat.leb firstn skipn bind].
  now rewrite le_combine_1, Hsw.
Qed.

(** A Transfer buffer parses exactly when eight bytes follow the
    discriminant; they are the amount. *)
Lemma parse_transfer (raw rest : list byte) :
  length raw = 8%nat ->
  INSTRUCTIONS_LAYOUT_parse (Byte.x03 :: raw ++ rest) =
  Ok (mkParsed 3 (Some [("amount"%string, VInt (le_combine raw))])).
Proof.
  intros Hraw. unfold INSTRUCTIONS_LAYOUT_parse.
  change (Byte.x03 :: raw ++ rest) with ([Byte.x03] ++ raw ++ rest).
  rewrite (parse_field_app Int8ul [Byte.x03]) by reflexivity.
  cbn [bind Int8ul]. rewrite le_combine_1.
  change (byte.unsigned Byte.x03) with 3.
  cbn [switch _AMOUNT_LAYOUT parse_struct].
  rewrite (parse_field_app Int64ul raw) by exact Hraw.
  reflexivity.
Qed.

Lemma parse_transfer_inv (data : list byte) (pd : ParsedInstruction) :
  INSTRUCTIONS_LAYOUT_parse data = Ok pd ->
  instruction_type pd = 3 ->
  exists raw rest,
    data = Byte.x03 :: raw ++ rest /\ length raw = 8%nat /\
    args pd = Some [("amount"%string, VInt (le_combine raw))].
Proof.
  intros Hp Hty. destruct (parse_inv _ _ Hp) as (b & rest & -> & Hb & Hargs).
  rewrite Hty in Hb. symmetry in Hb. apply byte_of_unsigned in Hb. subst b.
  change (switch (byte.unsigned (byte.of_Z 3))) with (Some _AMOUNT_LAYOUT) in Hargs.
  destruct Hargs as (c & r & Hs & Hc).
  cbn [_AMOUNT_LAYOUT parse_struct] in Hs.
  destruct (parse_field Int64ul rest) as [[v r']|] eqn:Hf; [|discriminate].
  cbn [bind] in Hs. injection Hs as <- <-.
  destruct (parse_field_inv _ _ _ _ Hf) as (raw & -> & Hlen & ->).
  exists raw, r'. auto.
Qed.

End ParseInversion.

(** ** Exactly which instructions the decoders accept *)
Section DecoderAcceptance.
Import Construct Layouts Validate Instructions.

(** A list of at least three entries. *)
Lemma at_least_three {A : Type} (l : list A) :
  3 <= Z.of_nat (length l) -> exists a b c t, l = a :: b :: c :: t.
Proof.
  destruct l as [|a [|b [|c t]]]; cbn [length]; try lia. eauto.
Qed.

Lemma pass_discriminant_inv (data : list byte) (pd : ParsedInstruction)
  (t : InstructionType) :
  INSTRUCTIONS_LAYOUT_parse data = Ok pd ->
  instruction_type pd = discriminant t ->
  exists rest, data = byte.of_Z (discriminant t) :: rest.
Proof.
  intros Hp Hty. destruct (parse_inv _ _ Hp) as (b & rest & -> & Hb & _).
  rewrite Hty in Hb. symmetry in Hb. apply byte_of_unsigned in Hb. subst b.
  now exists rest.
Qed.

(** The instructions [decode_close_account] accepts, and what it returns. *)
Lemma decode_close_account_shape (i : TransactionInstruction.t)
  (p : CloseAccountParams.t) :
  decode_close_account i = Ok p <->
  exists k0 k1 k2 ks rest,
    TransactionInstruction.keys i = k0 :: k1 :: k2 :: ks /\
    TransactionInstruction.data i = Byte.x09 :: rest /\
    p = CloseAccountParams.mk (TransactionInstruction.program_id i)
          (AccountMeta.pubkey k0) (AccountMeta.pubkey k1)
          (AccountMeta.pubkey k2) (pubkeys ks).
Proof.
  split.
  - unfold decode_close_account.
    destruct (validate_instruction_keys i 3) as [[]|] eqn:Hk; [|discriminate].
    apply validate_instruction_keys_inv in Hk.
    destruct (at_least_three _ Hk) as (k0 & k1 & k2 & ks & Hkeys).
    cbn [bind].
    destruct (INSTRUCTIONS_LAYOUT_parse _) as [pd|] eqn:Hp; [|discriminate].
    cbn [bind].
    destruct (validate_instruction_type pd CloseAccount) as [[]|] eqn:Hty;
      [|discriminate].
    apply validate_instruction_type_ok in Hty.
    destruct (pass_discriminant_inv _ _ _ Hp Hty) as (rest & Hdata).
    unfold key_at. rewrite Hkeys. cbn. intros [= <-].
    exists k0, k1, k2, ks, rest. auto.
  - intros (k0 & k1 & k2 & ks & rest & Hkeys & Hdata & ->).
    unfold decode_close_account, key_at.
    rewrite validate_instruction_keys_ok
      by (rewrite Hkeys; cbn [length]; lia).
    rewrite Hdata, (parse_pass Byte.x09 rest eq_refl), Hkeys. reflexivity.
Qed.

(** [decode_close_account] accepts exactly the instructions with at least
    three account references whose data starts with byte 9.  Nothing after
    that byte is read (the kind has no field, so there is nothing to
    truncate), and the references after the third are the signers. *)
Theorem decode_close_account_accepts (i : TransactionInstruction.t)
  (p : CloseAccountParams.t) :
  decode_close_account i = Ok p <->
  exists k0 k1 k2 ks rest,
    TransactionInstruction.keys i = k0 :: k1 :: k2 :: ks /\
    TransactionInstruction.data i = Byte.x09 :: rest /\
    p = CloseAccountParams.mk (TransactionInstruction.program_id i)
          (AccountMeta.pubkey k0) (AccountMeta.pubkey k1)
          (AccountMeta.pubkey k2) (pubkeys ks).
Proof. exact (decode_close_account_shape i p). Qed.

Lemma decode_close_account_accepts_witness :
  decode_close_account
    (TransactionInstruction.mk
       (TransactionInstruction.keys Examples.transfer_three_keys)
       Examples.program [Byte.x09]) =
  Ok Examples.close_single.
Proof.
  apply (proj2 (decode_close_account_accepts _ _)).
  do 5 eexists. repeat split.
Defined.

(** The instructions [decode_initialize_account] accepts, and what it returns. *)
Lemma decode_initialize_account_shape (i : TransactionInstruction.t)
  (p : InitializeAccountParams.t) :
  decode_initialize_account i = Ok p <->
  exists k0 k1 k2 k3 ks rest,
    TransactionInstruction.keys i = k0 :: k1 :: k2 :: k3 :: ks /\
    TransactionInstruction.data i = Byte.x01 :: rest /\
    p = InitializeAccountParams.mk (TransactionInstruction.program_id i)
          (AccountMeta.pubkey k0) (AccountMeta.pubkey k1)
          (AccountMeta.pubkey k2).
Proof.
  split.
  - unfold decode_initialize_account.
    destruct (validate_instruction_keys i 4) as [[]|] eqn:Hk; [|discriminate].
    apply validate_instruction_keys_inv in Hk.
    destruct (TransactionInstruction.keys i) as [|k0 [|k1 [|k2 [|k3 ks]]]] eqn:Hkeys;
      cbn [length] in Hk; try lia.
    cbn [bind].
    destruct (INSTRUCTIONS_LAYOUT_parse _) as [pd|] eqn:Hp; [|discriminate].
    cbn [bind].
    destruct (validate_instruction_type pd InitializeAccount) as [[]|] eqn:Hty;
      [|discriminate].
    apply validate_instruction_type_ok in Hty.
    destruct (pass_discriminant_inv _ _ _ Hp Hty) as (rest & Hdata).
    unfold key_at. rewrite Hkeys. cbn. intros [= <-].
    exists k0, k1, k2, k3, ks, rest. auto.
  - intros (k0 & k1 & k2 & k3 & ks & rest & Hkeys & Hdata & ->).
    unfold decode_initialize_account, key_at.
    rewrite validate_instruction_keys_ok
      by (rewrite Hkeys; cbn [length]; lia).
    rewrite Hdata, (parse_pass Byte.x01 rest eq_refl), Hkeys. reflexivity.
Qed.

(** [decode_initialize_account] accepts exactly the instructions with at
    least four account references whose data starts with byte 1.  It reads
    the first three addresses only: the fourth reference (the rent sysvar
    in what [initialize_account] emits) is counted and never looked at. *)
Theorem decode_initialize_account_accepts (i : TransactionInstruction.t)
  (p : InitializeAccountParams.t) :
  decode_initialize_account i = Ok p <->
  exists k0 k1 k2 k3 ks rest,
    TransactionInstruction.keys i = k0 :: k1 :: k2 :: k3 :: ks /\
    TransactionInstruction.data i = Byte.x01 :: rest /\
    p = InitializeAccountParams.mk (TransactionInstruction.program_id i)
          (AccountMeta.pubkey k0) (AccountMeta.pubkey k1)
          (AccountMeta.pubkey k2).
Proof. exact (decode_initialize_account_shape i p). Qed.

Lemma decode_initialize_account_accepts_witness :
  decode_initialize_account Examples.account_foreign_fourth_key =
  Ok Examples.account.
Proof.
  apply (proj2 (decode_initialize_account_accepts _ _)).
  do 6 eexists. repeat split.
Defined.

(** The instructions [decode_transfer] accepts, and what it returns. *)
Lemma decode_transfer_shape (i : TransactionInstruction.t)
  (p : TransferParams.t) :
  decode_transfer i = Ok p <->
  exists k0 k1 k2 ks raw rest,
    TransactionInstruction.keys i = k0 :: k1 :: k2 :: ks /\
    TransactionInstruction.data i = Byte.x03 :: raw ++ rest /\
    length raw = 8%nat /\
    p = TransferParams.mk (TransactionInstruction.program_id i)
          (AccountMeta.pubkey k0) (AccountMeta.pubkey k1)
          (AccountMeta.pubkey k2) (pubkeys ks) (le_combine raw).
Proof.
  split.
  - unfold decode_transfer.
    destruct (validate_instruction_keys i 3) as [[]|] eqn:Hk; [|discriminate].
    apply validate_instruction_keys_inv in Hk.
    destruct (at_least_three _ Hk) as (k0 & k1 & k2 & ks & Hkeys).
    cbn [bind].
    destruct (INSTRUCTIONS_LAYOUT_parse _) as [pd|] eqn:Hp; [|discriminate].
    cbn [bind].
    destruct (validate_instruction_type pd Transfer) as [[]|] eqn:Hty;
      [|discriminate].
    apply validate_instruction_type_ok in Hty.
    destruct (parse_transfer_inv _ _ Hp Hty) as (raw & rest & Hdata & Hraw & Hargs).
    unfold key_at. rewrite Hkeys, Hargs. cbn. intros [= <-].
    exists k0, k1, k2, ks, raw, rest. auto.
  - intros (k0 & k1 & k2 & ks & raw & rest & Hkeys & Hdata & Hraw & ->).
    unfold decode_transfer, key_at.
    rewrite validate_instruction_keys_ok
      by (rewrite Hkeys; cbn [length]; lia).
    rewrite Hdata, (parse_transfer raw rest Hraw), Hkeys. reflexivity.
Qed.

(** [decode_transfer] accepts exactly the instructions with at least three
    account references whose data is byte 3 followed by at least eight
    bytes.  The amount is those eight bytes read little-endian, bytes after
    them are ignored, and the references after the third are the signers. *)
Theorem decode_transfer_accepts (i : TransactionInstruction.t)
  (p : TransferParams.t) :
  decode_transfer i = Ok p <->
  exists k0 k1 k2 ks raw rest,
    TransactionInstruction.keys i = k0 :: k1 :: k2 :: ks /\
    TransactionInstruction.data i = Byte.x03 :: raw ++ rest /\
    length raw = 8%nat /\
    p = TransferParams.mk (TransactionInstruction.program_id i)
          (AccountMeta.pubkey k0) (AccountMeta.pubkey k1)
          (AccountMeta.pubkey k2) (pubkeys ks) (le_combine raw).
Proof. exact (decode_transfer_shape i p). Qed.

Lemma decode_transfer_accepts_witness :
  decode_transfer Examples.transfer_trailing_bytes = Ok Examples.transfer_one.
Proof.
  apply (proj2 (decode_transfer_accepts _ _)).
  exists (AccountMeta.mk (Examples.key 1) false true),
         (AccountMeta.mk (Examples.key 2) false true),
         (AccountMeta.mk (Examples.key 3) true false), [],
         (tl Examples.transfer_data), [Byte.xff; Byte.xff].
  repeat split.
Defined.

End DecoderAcceptance.

(** ** Failures of [decode_initialize_multisig] *)
Section MultisigFailures.
Import Construct Layouts Validate Instructions.

(** An InitializeMultisig buffer: the discriminant and the signer count. *)
Lemma parse_initialize_multisig (mb : byte) (rest : list byte) :
  INSTRUCTIONS_LAYOUT_parse (Byte.x02 :: mb :: rest) =
  Ok (mkParsed 2 (Some [("m"%string, VInt (byte.unsigned mb))])).
Proof.
  unfold INSTRUCTIONS_LAYOUT_parse.
  change (Byte.x02 :: mb :: rest) with ([Byte.x02] ++ [mb] ++ rest).
  rewrite (parse_field_app Int8ul [Byte.x02]) by reflexivity.
  cbn [bind Int8ul]. rewrite le_combine_1.
  change (byte.unsigned Byte.x02) with 2.
  cbn [switch _INITIALIZE_MULTISIG_LAYOUT parse_struct].
  rewrite (parse_field_app Int8ul [mb]) by reflexivity.
  cbn [bind Int8ul]. now rewrite le_combine_1.
Qed.

(** [decode_initialize_multisig] looks at the data before the account
    list.  A buffer that is empty, or holds the discriminant 2 and no signer
    count, fails as truncated; a buffer that parses with another first byte
    fails with [WrongInstructionType]; both whatever the account list holds.
    Only then is the account list counted, against [2 + m] with [m] read
    from the second byte. *)
Theorem decode_initialize_multisig_failures (i : TransactionInstruction.t) :
  (TransactionInstruction.data i = [] \/
   TransactionInstruction.data i = [Byte.x02] ->
   decode_initialize_multisig i = Err TruncatedInstruction) /\
  (forall b rest,
     TransactionInstruction.data i = b :: rest ->
     is_ok (INSTRUCTIONS_LAYOUT_parse (TransactionInstruction.data i)) = true ->
     byte.unsigned b <> 2 ->
     decode_initialize_multisig i =
     Err (WrongInstructionType 2 (byte.unsigned b))) /\
  (forall mb rest,
     TransactionInstruction.data i = Byte.x02 :: mb :: rest ->
     Z.of_nat (length (TransactionInstruction.keys i)) < 2 + byte.unsigned mb ->
     decode_initialize_multisig i =
     Err (InvalidAccountCount (length (TransactionInstruction.keys i))
            (2 + byte.unsigned mb))).
Proof.
  split; [|split].
  - intros [Hd|Hd]; unfold decode_initialize_multisig; now rewrite Hd.
  - intros b rest Hdata Hok Hne.
    destruct (parse_then_type_mismatch _ _ _ InitializeMultisig Hdata Hok Hne)
      as (pd & Hp & Hty).
    unfold decode_initialize_multisig. rewrite Hp. cbn [bind]. now rewrite Hty.
  - intros mb rest Hdata Hshort.
    unfold decode_initialize_multisig.
    rewrite Hdata, parse_initialize_multisig. cbn [bind].
    change (validate_instruction_type _ InitializeMultisig) with (@Ok unit tt).
    cbn [bind].
    change (attr_int _ "m") with (@Ok Z (byte.unsigned mb)). cbn [bind].
    now rewrite (validate_instruction_keys_short i _ Hshort).
Qed.

Lemma decode_initialize_multisig_failures_witness :
  decode_initialize_multisig
    (TransactionInstruction.mk [] Examples.program [Byte.x02]) =
    Err TruncatedInstruction /\
  decode_initialize_multisig
    (TransactionInstruction.mk [] Examples.program Examples.transfer_data) =
    Err (WrongInstructionType 2 3) /\
  decode_initialize_multisig
    (TransactionInstruction.mk
       (TransactionInstruction.keys Examples.transfer_three_keys)
       Examples.program [Byte.x02; Byte.x02]) =
    Err (InvalidAccountCount 3 4).
Proof.
  split; [|split].
  - apply (proj1 (decode_initialize_multisig_failures _)). now right.
  - apply (proj1 (proj2 (decode_initialize_multisig_failures _))
             Byte.x03 (tl Examples.transfer_data)).
    + reflexivity.
    + reflexivity.
    + cbn. lia.
  - refine (proj2 (proj2 (decode_initialize_multisig_failures
                            (TransactionInstruction.mk
                               (TransactionInstruction.keys
                                  Examples.transfer_three_keys)
                               Examples.program [Byte.x02; Byte.x02])))
              Byte.x02 [] eq_refl _).
    cbn. lia.
Defined.

End MultisigFailures.

(** ** Decoded parameters can be encoded again *)
Section Reencoding.
Import Construct Layouts Validate Instructions.

(** The addresses [__add_signers] appends are the owner and the signers, in
    that order, whether or not there are signers. *)
Lemma add_signers_pubkeys (keys : list AccountMeta.t) (owner : PublicKey)
  (signers : list PublicKey) :
  pubkeys (__add_signers keys owner signers) = pubkeys keys ++ owner :: signers.
Proof.
  rewrite add_signers_spec. unfold pubkeys. rewrite map_app.
  destruct signers as [|s ss]; [reflexivity|].
  cbn [map AccountMeta.pubkey]. rewrite map_map. cbn [AccountMeta.pubkey].
  now rewrite map_id.
Qed.

(** Whatever [decode_transfer] returns is in the range [transfer] accepts:
    encoding it succeeds, the new instruction has the same program id, the
    same account addresses in the same order and the first nine bytes of the
    old data, and it decodes to the same parameters. *)
Theorem decoded_transfer_reencodes (i : TransactionInstruction.t)
  (p : TransferParams.t) :
  decode_transfer i = Ok p ->
  valid_transfer p /\
  exists i',
    transfer p = Ok i' /\
    TransactionInstruction.program_id i' = TransactionInstruction.program_id i /\
    pubkeys (TransactionInstruction.keys i') =
    pubkeys (TransactionInstruction.keys i) /\
    TransactionInstruction.data i' = firstn 9 (TransactionInstruction.data i) /\
    decode_transfer i' = Ok p.
Proof.
  intros Hdec.
  destruct (proj1 (decode_transfer_shape i p) Hdec)
    as (k0 & k1 & k2 & ks & raw & rest & Hkeys & Hdata & Hraw & Hp).
  assert (Hvalid : valid_transfer p).
  { subst p. unfold valid_transfer. cbn [TransferParams.amount].
    pose proof (le_combine_bound raw) as Hb. rewrite Hraw in Hb. exact Hb. }
  split; [exact Hvalid|].
  pose proof (transfer_roundtrip p Hvalid) as Hround.
  unfold valid_transfer in Hvalid.
  revert Hround. unfold transfer. rewrite (build_transfer _ Hvalid).
  cbn [bind]. intros Hround. eexists. split; [reflexivity|].
  cbn [TransactionInstruction.program_id TransactionInstruction.keys
       TransactionInstruction.data].
  rewrite add_signers_pubkeys, Hkeys, Hdata. subst p.
  cbn [TransferParams.program_id TransferParams.source
       TransferParams.destination TransferParams.authority
       TransferParams.signers TransferParams.amount].
  repeat split.
  - change (firstn 9 (Byte.x03 :: raw ++ rest))
      with (Byte.x03 :: firstn 8 (raw ++ rest)).
    rewrite (firstn_exact_app _ _ _ Hraw).
    f_equal. rewrite <- Hraw. apply split_le_combine.
  - exact Hround.
Qed.

Lemma decoded_transfer_reencodes_witness :
  exists i',
    transfer Examples.transfer_one = Ok i' /\
    TransactionInstruction.data i' = Examples.transfer_data /\
    decode_transfer i' = Ok Examples.transfer_one.
Proof.
  destruct (decoded_transfer_reencodes Examples.transfer_trailing_bytes
              Examples.transfer_one)
    as (_ & i' & Henc & _ & _ & Hdata & Hdec).
  - vm_compute. reflexivity.
  - exists i'. split; [exact Henc|]. split; [exact Hdata|exact Hdec].
Defined.

(** Whatever [decode_close_account] returns encodes again, to an
    instruction with the same program id and account addresses whose data is
    the discriminant byte alone, and that decodes to the same parameters. *)
Theorem decoded_close_account_reencodes (i : TransactionInstruction.t)
  (p : CloseAccountParams.t) :
  decode_close_account i = Ok p ->
  exists i',
    close_account p = Ok i' /\
    TransactionInstruction.program_id i' = TransactionInstruction.program_id i /\
    pubkeys (TransactionInstruction.keys i') =
    pubkeys (TransactionInstruction.keys i) /\
    TransactionInstruction.data i' = [Byte.x09] /\
    decode_close_account i' = Ok p.
Proof.
  intros Hdec.
  destruct (proj1 (decode_close_account_shape i p) Hdec)
    as (k0 & k1 & k2 & ks & rest & Hkeys & Hdata & Hp).
  pose proof (close_account_roundtrip p) as Hround.
  revert Hround. unfold close_account.
  rewrite (build_pass CloseAccount None eq_refl).
  cbn [bind]. intros Hround. eexists. split; [reflexivity|].
  cbn [TransactionInstruction.program_id TransactionInstruction.keys
       TransactionInstruction.data].
  rewrite add_signers_pubkeys, Hkeys. subst p.
  cbn [CloseAccountParams.program_id CloseAccountParams.account
       CloseAccountParams.destination CloseAccountParams.owner
       CloseAccountParams.signers].
  repeat split. exact Hround.
Qed.

Lemma decoded_close_account_reencodes_witness :
  exists i',
    close_account Examples.close_single = Ok i' /\
    TransactionInstruction.data i' = [Byte.x09] /\
    decode_close_account i' = Ok Examples.close_single.
Proof.
  destruct (decoded_close_account_reencodes
              (TransactionInstruction.mk
                 (TransactionInstruction.keys Examples.transfer_three_keys)
                 Examples.program [Byte.x09; Byte.xff])
              Examples.close_single)
    as (i' & Henc & _ & _ & Hdata & Hdec).
  - vm_compute. reflexivity.
  - exists i'. split; [exact Henc|]. split; [exact Hdata|exact Hdec].
Defined.

End Reencoding.

(** ** When the encoders fail *)
Section EncoderFailures.
Import Construct Layouts Validate Instructions.

Lemma build_int_out_of_range (w : nat) (z : Z) :
  ~ 0 <= z < 2 ^ (8 * Z.of_nat w) ->
  build_field (IntLE w) (VInt z) = Err InvalidParameters.
Proof.
  intros H. cbn [build_field].
  destruct (Z.leb_spec 0 z); [|reflexivity].
  destruct (Z.ltb_spec z (2 ^ (8 * Z.of_nat w))); [lia|reflexivity].
Qed.

Lemma build_bytes_wrong_length (n : nat) (bs : list byte) :
  length bs <> n -> build_field (Bytes n) (VBytes bs) = Err InvalidParameters.
Proof.
  intros H. cbn [build_field].
  destruct (Nat.eqb_spec (length bs) n); [contradiction|reflexivity].
Qed.

(** [transfer] succeeds exactly on an amount that fits an unsigned 64-bit
    integer, and fails on every other amount, a negative one included. *)
Theorem transfer_accepts_u64_amounts (p : TransferParams.t) :
  (valid_transfer p -> exists i, transfer p = Ok i) /\
  (~ valid_transfer p -> transfer p = Err InvalidParameters).
Proof.
  unfold valid_transfer. split; intros H.
  - unfold transfer. rewrite (build_transfer _ H). cbn [bind]. eauto.
  - unfold transfer, INSTRUCTIONS_LAYOUT_build.
    rewrite build_discriminant.
    cbn [bind discriminant switch _AMOUNT_LAYOUT build_struct].
    change (lookup "amount" [("amount"%string, VInt (TransferParams.amount p))])
      with (Some (VInt (TransferParams.amount p))).
    unfold Int64ul. now rewrite (build_int_out_of_range 8 _ H).
Qed.

Lemma transfer_accepts_u64_amounts_witness :
  (exists i, transfer Examples.transfer_multisig = Ok i) /\
  transfer (TransferParams.mk Examples.program (Examples.key 1)
              (Examples.key 2) (Examples.key 3) [] (2 ^ 64)) =
    Err InvalidParameters /\
  transfer (TransferParams.mk Examples.program (Examples.key 1)
              (Examples.key 2) (Examples.key 3) [] (-1)) =
    Err InvalidParameters.
Proof.
  split; [|split].
  - apply (proj1 (transfer_accepts_u64_amounts _)).
    unfold valid_transfer. cbn. lia.
  - apply (proj2 (transfer_accepts_u64_amounts _)).
    unfold valid_transfer. cbn. lia.
  - apply (proj2 (transfer_accepts_u64_amounts _)).
    unfold valid_transfer. cbn. lia.
Defined.

(** [initialize_multisig] checks that [m] fits one byte and nothing else:
    it neither compares [m] with the number of signers nor bounds that
    number.  When it succeeds the account list is the multisig account
    (writable), the rent sysvar and every signer in input order, none of
    them signing, and the data is the discriminant 2 followed by [m]. *)
Theorem initialize_multisig_checks_m_only (p : InitializeMultisigParams.t) :
  (0 <= InitializeMultisigParams.m p < 256 ->
   initialize_multisig p =
   Ok (TransactionInstruction.mk
         (AccountMeta.mk (InitializeMultisigParams.multisig p) false true
          :: AccountMeta.mk SYSVAR_RENT_PUBKEY false false
          :: map (fun signer => AccountMeta.mk signer false false)
               (InitializeMultisigParams.signers p))
         (InitializeMultisigParams.program_id p)
         [Byte.x02; byte.of_Z (InitializeMultisigParams.m p)])) /\
  (~ 0 <= InitializeMultisigParams.m p < 256 ->
   initialize_multisig p = Err InvalidParameters).
Proof.
  split; intros H.
  - unfold initialize_multisig. rewrite (build_initialize_multisig _ H).
    cbn [bind]. now rewrite fold_left_snoc.
  - unfold initialize_multisig, INSTRUCTIONS_LAYOUT_build.
    rewrite build_discriminant.
    cbn [bind discriminant switch _INITIALIZE_MULTISIG_LAYOUT build_struct].
    change (lookup "m" [("m"%string, VInt (InitializeMultisigParams.m p))])
      with (Some (VInt (InitializeMultisigParams.m p))).
    unfold Int8ul. now rewrite (build_int_out_of_range 1 _ H).
Qed.

Lemma initialize_multisig_checks_m_only_witness :
  (exists i, initialize_multisig Examples.multisig_1_of_2 = Ok i /\
     length (TransactionInstruction.keys i) = 4%nat /\
     TransactionInstruction.data i = [Byte.x02; Byte.x01]) /\
  initialize_multisig
    (InitializeMultisigParams.mk Examples.program (Examples.key 1)
       [Examples.key 2] 256) = Err InvalidParameters.
Proof.
  split.
  - eexists. split.
    + apply (proj1 (initialize_multisig_checks_m_only _)). cbn. lia.
    + split; reflexivity.
  - apply (proj2 (initialize_multisig_checks_m_only _)). cbn. lia.
Defined.

(** The three [initialize_*] encoders need no signer, as their docstrings
    say: no account reference they emit is marked as signing. *)
Theorem initialize_encoders_need_no_signer :
  (forall p i, initialize_mint p = Ok i ->
     Forall (fun k => AccountMeta.is_signer k = false)
       (TransactionInstruction.keys i)) /\
  (forall p i, initialize_account p = Ok i ->
     Forall (fun k => AccountMeta.is_signer k = false)
       (TransactionInstruction.keys i)) /\
  (forall p i, initialize_multisig p = Ok i ->
     Forall (fun k => AccountMeta.is_signer k = false)
       (TransactionInstruction.keys i)).
Proof.
  split; [|split]; intros p i.
  - unfold initialize_mint.
    destruct (InitializeMintParams.freeze_authority p);
      encoder_built bs Hb; repeat constructor.
  - unfold initialize_account. encoder_built bs Hb. repeat constructor.
  - unfold initialize_multisig. encoder_built bs Hb.
    cbn [TransactionInstruction.keys]. rewrite fold_left_snoc.
    cbn [app]. do 2 (constructor; [reflexivity|]).
    apply Forall_map, Forall_forall. reflexivity.
Qed.

Lemma initialize_encoders_need_no_signer_witness :
  exists i, initialize_multisig Examples.multisig_2_of_2 = Ok i /\
    Forall (fun k => AccountMeta.is_signer k = false)
      (TransactionInstruction.keys i).
Proof.
  destruct (initialize_multisig Examples.multisig_2_of_2) as [i|] eqn:Hi;
    [|vm_compute in Hi; discriminate].
  exists i. split; [reflexivity|].
  exact (proj2 (proj2 initialize_encoders_need_no_signer) _ _ Hi).
Defined.

(** [transfer] and [close_account] ask for a signature from the authority
    alone when no signer is listed, and from every listed signer and not
    from the authority otherwise; the source, destination and closed
    accounts never sign. *)
Theorem authority_or_signers_sign :
  (forall p i, transfer p = Ok i ->
     map AccountMeta.pubkey
       (filter AccountMeta.is_signer (TransactionInstruction.keys i)) =
     match TransferParams.signers p with
     | [] => [TransferParams.authority p]
     | _ :: _ => TransferParams.signers p
     end) /\
  (forall p i, close_account p = Ok i ->
     map AccountMeta.pubkey
       (filter AccountMeta.is_signer (TransactionInstruction.keys i)) =
     match CloseAccountParams.signers p with
     | [] => [CloseAccountParams.owner p]
     | _ :: _ => CloseAccountParams.signers p
     end).
Proof.
  assert (Hfilter : forall ks : list PublicKey,
            map AccountMeta.pubkey
              (filter AccountMeta.is_signer
                 (map (fun signer => AccountMeta.mk signer true false) ks)) = ks).
  { induction ks as [|k ks IH]; [reflexivity|]. cbn. now rewrite IH. }
  split; intros p i.
  - unfold transfer. encoder_built bs Hb.
    cbn [TransactionInstruction.keys]. rewrite add_signers_spec.
    destruct (TransferParams.signers p) as [|s ss]; [reflexivity|].
    cbn [app filter AccountMeta.is_signer]. apply Hfilter.
  - unfold close_account. encoder_built bs Hb.
    cbn [TransactionInstruction.keys]. rewrite add_signers_spec.
    destruct (CloseAccountParams.signers p) as [|s ss]; [reflexivity|].
    cbn [app filter AccountMeta.is_signer]. apply Hfilter.
Qed.

Lemma authority_or_signers_sign_witness :
  exists i, transfer Examples.transfer_multisig = Ok i /\
    map AccountMeta.pubkey
      (filter AccountMeta.is_signer (TransactionInstruction.keys i)) =
    [Examples.key 4; Examples.key 5].
Proof.
  destruct (transfer Examples.transfer_multisig) as [i|] eqn:Hi;
    [|vm_compute in Hi; discriminate].
  exists i. split; [reflexivity|].
  exact (proj1 authority_or_signers_sign _ _ Hi).
Defined.

End EncoderFailures.

(** ** [decode_initialize_mint] on any buffer *)
Section MintDecoding.
Import Construct Layouts Validate Instructions.

Lemma parse_initialize_mint_inv (data : list byte) (pd : ParsedInstruction) :
  INSTRUCTIONS_LAYOUT_parse data = Ok pd ->
  instruction_type pd = 0 ->
  exists dec ma flag fa rest,
    data = Byte.x00 :: dec :: ma ++ flag ++ fa ++ rest /\
    length ma = 32%nat /\ length flag = 4%nat /\ length fa = 32%nat /\
    args pd =
    Some [("decimals"%string, VInt (byte.unsigned dec));
          ("mint_authority"%string, VBytes ma);
          ("freeze_authority_option"%string, VInt (le_combine flag));
          ("freeze_authority"%string, VBytes fa)].
Proof.
  intros Hp Hty. destruct (parse_inv _ _ Hp) as (b & rest & -> & Hb & Hargs).
  rewrite Hty in Hb. symmetry in Hb. apply byte_of_unsigned in Hb. subst b.
  change (switch (byte.unsigned (byte.of_Z 0)))
    with (Some _INITIALIZE_MINT_LAYOUT) in Hargs.
  destruct Hargs as (c & r & Hs & Hc).
  cbn [_INITIALIZE_MINT_LAYOUT parse_struct] in Hs.
  destruct (parse_field Int8ul rest) as [[v1 r1]|] eqn:H1; [|discriminate].
  cbn [bind] in Hs.
  destruct (parse_field PUBLIC_KEY_LAYOUT r1) as [[v2 r2]|] eqn:H2; [|discriminate].
  cbn [bind] in Hs.
  destruct (parse_field Int32ul r2) as [[v3 r3]|] eqn:H3; [|discriminate].
  cbn [bind] in Hs.
  destruct (parse_field PUBLIC_KEY_LAYOUT r3) as [[v4 r4]|] eqn:H4; [|discriminate].
  cbn [bind] in Hs. injection Hs as <- <-.
  destruct (parse_field_inv _ _ _ _ H1) as (raw1 & -> & Hl1 & ->).
  destruct (parse_field_inv _ _ _ _ H2) as (raw2 & -> & Hl2 & ->).
  destruct (parse_field_inv _ _ _ _ H3) as (raw3 & -> & Hl3 & ->).
  destruct (parse_field_inv _ _ _ _ H4) as (raw4 & -> & Hl4 & ->).
  destruct raw1 as [|dec [|]]; try discriminate Hl1.
  cbn [Int8ul Int32ul PUBLIC_KEY_LAYOUT] in Hc. rewrite le_combine_1 in Hc.
  exists dec, raw2, raw3, raw4, r4. cbn [app]. auto 6.
Qed.

(** The instructions [decode_initialize_mint] accepts, and what it returns. *)
Lemma decode_initialize_mint_shape (i : TransactionInstruction.t)
  (p : InitializeMintParams.t) :
  decode_initialize_mint i = Ok p <->
  exists k0 k1 ks dec ma flag fa rest,
    TransactionInstruction.keys i = k0 :: k1 :: ks /\
    TransactionInstruction.data i =
      Byte.x00 :: dec :: ma ++ flag ++ fa ++ rest /\
    length ma = 32%nat /\ length flag = 4%nat /\ length fa = 32%nat /\
    p = InitializeMintParams.mk (byte.unsigned dec)
          (TransactionInstruction.program_id i) (AccountMeta.pubkey k0)
          (mkPublicKey ma)
          (if le_combine flag =? 0 then None else Some (mkPublicKey fa)).
Proof.
  split.
  - unfold decode_initialize_mint.
    destruct (validate_instruction_keys i 2) as [[]|] eqn:Hk; [|discriminate].
    apply validate_instruction_keys_inv in Hk.
    destruct (TransactionInstruction.keys i) as [|k0 [|k1 ks]] eqn:Hkeys;
      cbn [length] in Hk; try lia.
    cbn [bind].
    destruct (INSTRUCTIONS_LAYOUT_parse _) as [pd|] eqn:Hp; [|discriminate].
    cbn [bind].
    destruct (validate_instruction_type pd InitializeMint) as [[]|] eqn:Hty;
      [|discriminate].
    apply validate_instruction_type_ok in Hty.
    destruct (parse_initialize_mint_inv _ _ Hp Hty)
      as (dec & ma & flag & fa & rest & Hdata & Hma & Hflag & Hfa & Hargs).
    unfold key_at. rewrite Hkeys, Hargs. cbn.
    destruct (le_combine flag =? 0) eqn:Hz; cbn; intros [= <-];
      exists k0, k1, ks, dec, ma, flag, fa, rest; rewrite Hz; auto 8.
  - intros (k0 & k1 & ks & dec & ma & flag & fa & rest
            & Hkeys & Hdata & Hma & Hflag & Hfa & ->).
    unfold decode_initialize_mint, key_at.
    rewrite validate_instruction_keys_ok
      by (rewrite Hkeys; cbn [length]; lia).
    rewrite Hdata, (parse_initialize_mint dec ma flag fa rest Hma Hflag Hfa),
      Hkeys.
    cbn. destruct (le_combine flag =? 0); reflexivity.
Qed.

(** [decode_initialize_mint] accepts exactly the instructions with at least
    two account references whose data is byte 0 followed by at least 69
    bytes: decimals, mint authority, option flag and freeze authority slot.
    Every non-zero flag counts as a present freeze authority, the second
    account reference is never looked at, and bytes after the slot are
    ignored. *)
Theorem decode_initialize_mint_accepts (i : TransactionInstruction.t)
  (p : InitializeMintParams.t) :
  decode_initialize_mint i = Ok p <->
  exists k0 k1 ks dec ma flag fa rest,
    TransactionInstruction.keys i = k0 :: k1 :: ks /\
    TransactionInstruction.data i =
      Byte.x00 :: dec :: ma ++ flag ++ fa ++ rest /\
    length ma = 32%nat /\ length flag = 4%nat /\ length fa = 32%nat /\
    p = InitializeMintParams.mk (byte.unsigned dec)
          (TransactionInstruction.program_id i) (AccountMeta.pubkey k0)
          (mkPublicKey ma)
          (if le_combine flag =? 0 then None else Some (mkPublicKey fa)).
Proof. exact (decode_initialize_mint_shape i p). Qed.

Lemma decode_initialize_mint_accepts_witness :
  exists fa,
    decode_initialize_mint Examples.mint_flag_two =
    Ok (InitializeMintParams.mk 6 Examples.program (Examples.key 1)
          (Examples.key 2) (Some fa)).
Proof.
  eexists. apply (proj2 (decode_initialize_mint_accepts _ _)).
  exists (AccountMeta.mk (Examples.key 1) false true),
         (AccountMeta.mk (Examples.key 77) true true), [],
         Byte.x06, (key_bytes (Examples.key 2)),
         [Byte.x02; Byte.x00; Byte.x00; Byte.x00],
         (key_bytes (Examples.key 3)), [].
  repeat split.
Defined.

(** Whatever [decode_initialize_mint] returns is valid for
    [initialize_mint]: encoding it succeeds and decodes to the same
    parameters. *)
Theorem decoded_initialize_mint_reencodes (i : TransactionInstruction.t)
  (p : InitializeMintParams.t) :
  decode_initialize_mint i = Ok p ->
  valid_initialize_mint p /\
  bind (initialize_mint p) decode_initialize_mint = Ok p.
Proof.
  intros Hdec.
  destruct (proj1 (decode_initialize_mint_shape i p) Hdec)
    as (k0 & k1 & ks & dec & ma & flag & fa & rest
        & Hkeys & Hdata & Hma & Hflag & Hfa & Hp).
  assert (Hvalid : valid_initialize_mint p).
  { subst p. unfold valid_initialize_mint, valid_pubkey.
    cbn [InitializeMintParams.decimals InitializeMintParams.mint_authority
         InitializeMintParams.freeze_authority key_bytes].
    pose proof (byte.unsigned_range dec) as Hr.
    change (2 ^ 8) with 256 in Hr.
    split; [exact Hr|]. split; [exact Hma|].
    destruct (le_combine flag =? 0); [exact I|exact Hfa]. }
  split; [exact Hvalid|]. now apply initialize_mint_roundtrip.
Qed.

Lemma decoded_initialize_mint_reencodes_witness :
  valid_initialize_mint
    (InitializeMintParams.mk 6 Examples.program (Examples.key 1)
       (Examples.key 2) (Some (Examples.key 3))) /\
  bind (initialize_mint
          (InitializeMintParams.mk 6 Examples.program (Examples.key 1)
             (Examples.key 2) (Some (Examples.key 3))))
    decode_initialize_mint =
  Ok (InitializeMintParams.mk 6 Examples.program (Examples.key 1)
        (Examples.key 2) (Some (Examples.key 3))).
Proof.
  apply (decoded_initialize_mint_reencodes Examples.mint_flag_two).
  vm_compute. reflexivity.
Defined.

End MintDecoding.

(** ** The layout lookup on what the encoders emit *)
Section LayoutLookupOfEncoded.
Import Construct Layouts Validate Instructions.

(** Little-endian reading, byte by byte. *)
Lemma le_combine_cons (b : byte) (l : list byte) :
  le_combine (b :: l) = byte.unsigned b + 256 * le_combine l.
Proof.
  change (le_combine (b :: l))
    with (Z.lor (byte.unsigned b) (Z.shiftl (le_combine l) 8)).
  pose proof (byte.unsigned_range b) as Hb.
  rewrite Z.shiftl_mul_pow2 by lia. change (2 ^ 8) with 256 in *.
  assert (Hdisjoint : Z.land (byte.unsigned b) (le_combine l * 256) = 0).
  { apply Z.bits_inj'. intros n Hn. rewrite Z.land_spec, Z.bits_0.
    destruct (Z.ltb_spec n 8) as [Hlt|Hge].
    - change 256 with (2 ^ 8). rewrite Z.mul_pow2_bits_low by lia.
      apply andb_false_r.
    - rewrite (Z.bits_above_log2 (byte.unsigned b)); [reflexivity| |].
      + pose proof (byte.unsigned_range b). lia.
      + pose proof (byte.unsigned_range b) as Hr.
        destruct (Z.eq_dec (byte.unsigned b) 0) as [->|Hnz]; [cbn; lia|].
        apply Z.log2_lt_pow2; [lia|].
        apply Z.lt_le_trans with (2 ^ 8); [lia|].
        apply Z.pow_le_mono_r; lia. }
  clear Hb.
  rewrite <- Z.lxor_lor by exact Hdisjoint.
  rewrite <- Z.add_nocarry_lxor by exact Hdisjoint. lia.
Qed.

(** What a successful [transfer] was given and what it returns. *)
Lemma transfer_inv (p : TransferParams.t) (i : TransactionInstruction.t) :
  transfer p = Ok i ->
  valid_transfer p /\
  TransactionInstruction.data i =
  Byte.x03 :: le_split 8 (TransferParams.amount p).
Proof.
  intros Hi.
  assert (Hvalid : valid_transfer p).
  { unfold valid_transfer.
    destruct (Z.leb_spec 0 (TransferParams.amount p));
      [destruct (Z.ltb_spec (TransferParams.amount p) (2 ^ 64)); [lia|]|].
    - revert Hi. unfold transfer, INSTRUCTIONS_LAYOUT_build.
      rewrite build_discriminant.
      cbn [bind discriminant switch _AMOUNT_LAYOUT build_struct].
      change (lookup "amount" [("amount"%string, VInt (TransferParams.amount p))])
        with (Some (VInt (TransferParams.amount p))).
      unfold Int64ul. rewrite build_int_out_of_range; [discriminate|].
      change (2 ^ (8 * Z.of_nat 8)) with (2 ^ 64). lia.
    - revert Hi. unfold transfer, INSTRUCTIONS_LAYOUT_build.
      rewrite build_discriminant.
      cbn [bind discriminant switch _AMOUNT_LAYOUT build_struct].
      change (lookup "amount" [("amount"%string, VInt (TransferParams.amount p))])
        with (Some (VInt (TransferParams.amount p))).
      unfold Int64ul. rewrite build_int_out_of_range; [discriminate|]. lia. }
  split; [exact Hvalid|].
  revert Hi. unfold transfer. rewrite (build_transfer _ Hvalid). cbn [bind].
  now intros [= <-].
Qed.

(** The four bytes the lookup reads off a Transfer buffer. *)
Lemma transfer_type_idx (amount : Z) :
  0 <= amount < 2 ^ 64 ->
  le_combine (firstn 4 (Byte.x03 :: le_split 8 amount)) =
  3 + 256 * (amount mod 2 ^ 24).
Proof.
  intros H.
  change (firstn 4 (Byte.x03 :: le_split 8 amount))
    with (Byte.x03 :: firstn 3 (le_split 8 amount)).
  rewrite le_combine_cons, le_combine_firstn, le_combine_split.
  change (byte.unsigned Byte.x03) with 3.
  change (2 ^ (Z.of_nat 8 * 8)) with (2 ^ 64).
  change (2 ^ (8 * Z.of_nat 3)) with (2 ^ 24).
  now rewrite (Z.mod_small amount) by exact H.
Qed.

(** [decode_instruction_layout] of [solana/token_program.py] on what the
    encoders of [spl/token/instructions.py] emit.  The one-byte data of
    [close_account] and [initialize_account] is looked up as layout 9 and 1.
    A Transfer instruction is looked up as layout 3 exactly when its amount
    is a multiple of 2^24, and an InitializeMultisig instruction as layout 2
    exactly when [m] is 0; every other one is rejected as unknown, because
    the lookup reads the first bytes of the fields as part of the type. *)
Theorem layout_lookup_of_encoded :
  (forall p i, close_account p = Ok i ->
     TokenProgram.decode_instruction_layout i =
     Ok (TokenProgram.mkInstructionLayout 9 EmptyString)) /\
  (forall p i, initialize_account p = Ok i ->
     TokenProgram.decode_instruction_layout i =
     Ok (TokenProgram.mkInstructionLayout 1 EmptyString)) /\
  (forall p i, transfer p = Ok i ->
     (TransferParams.amount p mod 2 ^ 24 = 0 ->
      TokenProgram.decode_instruction_layout i =
      Ok (TokenProgram.mkInstructionLayout 3 "Q")) /\
     (TransferParams.amount p mod 2 ^ 24 <> 0 ->
      TokenProgram.decode_instruction_layout i =
      Err (ValueError "unknown transaction instruction"))) /\
  (forall p i, initialize_multisig p = Ok i ->
     (InitializeMultisigParams.m p = 0 ->
      TokenProgram.decode_instruction_layout i =
      Ok (TokenProgram.mkInstructionLayout 2 "B")) /\
     (InitializeMultisigParams.m p <> 0 ->
      TokenProgram.decode_instruction_layout i =
      Err (ValueError "unknown transaction instruction"))).
Proof.
  split; [|split; [|split]].
  - intros p i. unfold close_account.
    rewrite (build_pass CloseAccount None eq_refl). cbn [bind].
    now intros [= <-].
  - intros p i. unfold initialize_account.
    rewrite (build_pass InitializeAccount None eq_refl). cbn [bind].
    now intros [= <-].
  - intros p i Hi. destruct (transfer_inv _ _ Hi) as [Hvalid Hdata].
    pose proof (transfer_type_idx _ Hvalid) as Hidx. rewrite <- Hdata in Hidx.
    pose proof (Z.mod_pos_bound (TransferParams.amount p) (2 ^ 24) eq_refl)
      as Hmod.
    split; intros Hm.
    + unfold TokenProgram.decode_instruction_layout,
        TokenProgram.from_uint8_bytes.
      rewrite Hidx, Hm. reflexivity.
    + apply (proj2 (decode_instruction_layout_spec i)). rewrite Hidx. lia.
  - intros p i Hi.
    assert (Hm : 0 <= InitializeMultisigParams.m p < 256).
    { destruct (Z.leb_spec 0 (InitializeMultisigParams.m p));
        [destruct (Z.ltb_spec (InitializeMultisigParams.m p) 256); [lia|]|];
        revert Hi; unfold initialize_multisig, INSTRUCTIONS_LAYOUT_build;
        rewrite build_discriminant;
        cbn [bind discriminant switch _INITIALIZE_MULTISIG_LAYOUT build_struct];
        change (lookup "m" [("m"%string, VInt (InitializeMultisigParams.m p))])
          with (Some (VInt (InitializeMultisigParams.m p)));
        unfold Int8ul;
        (rewrite build_int_out_of_range; [discriminate|]);
        change (2 ^ (8 * Z.of_nat 1)) with 256; lia. }
    revert Hi. unfold initialize_multisig.
    rewrite (build_initialize_multisig _ Hm). cbn [bind]. intros [= <-].
    assert (Hidx : le_combine
                     (firstn 4 [byte.of_Z 2; byte.of_Z (InitializeMultisigParams.m p)])
                   = 2 + 256 * InitializeMultisigParams.m p).
    { cbn [firstn]. rewrite !le_combine_cons.
      change (byte.unsigned (byte.of_Z 2)) with 2. rewrite byte.unsigned_of_Z.
      change (le_combine []) with 0.
      unfold byte.wrap. change (2 ^ 8) with 256.
      rewrite Z.mod_small by exact Hm. lia. }
    split; intros Hz.
    + unfold TokenProgram.decode_instruction_layout,
        TokenProgram.from_uint8_bytes.
      cbn [TransactionInstruction.data]. rewrite Hidx, Hz. reflexivity.
    + apply (proj2 (decode_instruction_layout_spec _)).
      cbn [TransactionInstruction.data]. rewrite Hidx. lia.
Qed.

Lemma layout_lookup_of_encoded_witness :
  (exists i, transfer Examples.transfer_single = Ok i /\
     TokenProgram.decode_instruction_layout i =
     Ok (TokenProgram.mkInstructionLayout 3 "Q")) /\
  (exists i, transfer Examples.transfer_multisig = Ok i /\
     TokenProgram.decode_instruction_layout i =
     Err (ValueError "unknown transaction instruction")) /\
  (exists i, initialize_multisig Examples.multisig_2_of_2 = Ok i /\
     TokenProgram.decode_instruction_layout i =
     Err (ValueError "unknown transaction instruction")).
Proof.
  destruct layout_lookup_of_encoded as (_ & _ & Htransfer & Hmultisig).
  split; [|split].
  - destruct (transfer Examples.transfer_single) as [i|] eqn:Hi;
      [|vm_compute in Hi; discriminate].
    exists i. split; [reflexivity|].
    apply (proj1 (Htransfer _ _ Hi)). reflexivity.
  - destruct (transfer Examples.transfer_multisig) as [i|] eqn:Hi;
      [|vm_compute in Hi; discriminate].
    exists i. split; [reflexivity|].
    apply (proj2 (Htransfer _ _ Hi)). vm_compute. discriminate.
  - destruct (initialize_multisig Examples.multisig_2_of_2) as [i|] eqn:Hi;
      [|vm_compute in Hi; discriminate].
    exists i. split; [reflexivity|].
    apply (proj2 (Hmultisig _ _ Hi)). discriminate.
Defined.

End LayoutLookupOfEncoded.

(** ** [decode_initialize_multisig] on any buffer *)
Section MultisigDecoding.
Import Construct Layouts Validate Instructions.

Lemma parse_initialize_multisig_inv (data : list byte)
  (pd : ParsedInstruction) :
  INSTRUCTIONS_LAYOUT_parse data = Ok pd ->
  instruction_type pd = 2 ->
  exists mb rest,
    data = Byte.x02 :: mb :: rest /\
    args pd = Some [("m"%string, VInt (byte.unsigned mb))].
Proof.
  intros Hp Hty. destruct (parse_inv _ _ Hp) as (b & rest & -> & Hb & Hargs).
  rewrite Hty in Hb. symmetry in Hb. apply byte_of_unsigned in Hb. subst b.
  change (switch (byte.unsigned (byte.of_Z 2)))
    with (Some _INITIALIZE_MULTISIG_LAYOUT) in Hargs.
  destruct Hargs as (c & r & Hs & Hc).
  cbn [_INITIALIZE_MULTISIG_LAYOUT parse_struct] in Hs.
  destruct (parse_field Int8ul rest) as [[v r']|] eqn:Hf; [|discriminate].
  cbn [bind] in Hs. injection Hs as <- <-.
  destruct (parse_field_inv _ _ _ _ Hf) as (raw & -> & Hlen & ->).
  destruct raw as [|mb [|]]; try discriminate Hlen.
  cbn [Int8ul] in Hc. rewrite le_combine_1 in Hc.
  exists mb, r'. auto.
Qed.

(** The instructions [decode_initialize_multisig] accepts, and what it
    returns. *)
Lemma decode_initialize_multisig_shape (i : TransactionInstruction.t)
  (p : InitializeMultisigParams.t) :
  decode_initialize_multisig i = Ok p <->
  exists k0 ks mb rest,
    TransactionInstruction.keys i = k0 :: ks /\
    TransactionInstruction.data i = Byte.x02 :: mb :: rest /\
    2 + byte.unsigned mb <= Z.of_nat (length (TransactionInstruction.keys i)) /\
    p = InitializeMultisigParams.mk (TransactionInstruction.program_id i)
          (AccountMeta.pubkey k0)
          (pubkeys (slice_last (Z.to_nat (byte.unsigned mb))
                      (TransactionInstruction.keys i)))
          (byte.unsigned mb).
Proof.
  split.
  - unfold decode_initialize_multisig.
    destruct (INSTRUCTIONS_LAYOUT_parse _) as [pd|] eqn:Hp; [|discriminate].
    cbn [bind].
    destruct (validate_instruction_type pd InitializeMultisig) as [[]|] eqn:Hty;
      [|discriminate].
    apply validate_instruction_type_ok in Hty.
    destruct (parse_initialize_multisig_inv _ _ Hp Hty)
      as (mb & rest & Hdata & Hargs).
    rewrite Hargs. cbn [bind].
    change (attr_int _ "m") with (@Ok Z (byte.unsigned mb)). cbn [bind].
    destruct (validate_instruction_keys i _) as [[]|] eqn:Hk; [|discriminate].
    apply validate_instruction_keys_inv in Hk. cbn [bind].
    unfold key_at.
    destruct (TransactionInstruction.keys i) as [|k0 ks] eqn:Hkeys.
    { pose proof (byte.unsigned_range mb). cbn [length] in Hk. lia. }
    cbn [nth_error bind]. intros [= <-].
    exists k0, ks, mb, rest. auto.
  - intros (k0 & ks & mb & rest & Hkeys & Hdata & Hlen & ->).
    unfold decode_initialize_multisig.
    rewrite Hdata, parse_initialize_multisig. cbn [bind].
    change (validate_instruction_type _ InitializeMultisig) with (@Ok unit tt).
    cbn [bind].
    change (attr_int _ "m") with (@Ok Z (byte.unsigned mb)). cbn [bind].
    rewrite (validate_instruction_keys_ok i _ Hlen). cbn [bind].
    unfold key_at. rewrite Hkeys. reflexivity.
Qed.

(** [decode_initialize_multisig] accepts exactly the instructions whose
    data is byte 2 followed by a count byte [m] and whose account list holds
    at least [2 + m] references.  The multisig address is the first
    reference, the second one is counted and never looked at, and bytes
    after the count are ignored. *)
Theorem decode_initialize_multisig_accepts (i : TransactionInstruction.t)
  (p : InitializeMultisigParams.t) :
  decode_initialize_multisig i = Ok p <->
  exists k0 ks mb rest,
    TransactionInstruction.keys i = k0 :: ks /\
    TransactionInstruction.data i = Byte.x02 :: mb :: rest /\
    2 + byte.unsigned mb <= Z.of_nat (length (TransactionInstruction.keys i)) /\
    p = InitializeMultisigParams.mk (TransactionInstruction.program_id i)
          (AccountMeta.pubkey k0)
          (pubkeys (slice_last (Z.to_nat (byte.unsigned mb))
                      (TransactionInstruction.keys i)))
          (byte.unsigned mb).
Proof. exact (decode_initialize_multisig_shape i p). Qed.

Lemma decode_initialize_multisig_accepts_witness :
  decode_initialize_multisig Examples.multisig_two_instruction =
  Ok Examples.multisig_2_of_2.
Proof.
  apply (proj2 (decode_initialize_multisig_accepts _ _)).
  exists (AccountMeta.mk (Examples.key 1) false true),
         (tl (TransactionInstruction.keys Examples.multisig_two_instruction)),
         Byte.x02, [].
  split; [reflexivity|]. split; [reflexivity|]. split; [cbn; lia|reflexivity].
Defined.

(** With a signer count of at least 1, whatever
    [decode_initialize_multisig] returns is valid for [initialize_multisig]
    (the count is the number of returned signers and fits one byte):
    encoding it succeeds and decodes to the same parameters. *)
Theorem decoded_initialize_multisig_reencodes (i : TransactionInstruction.t)
  (p : InitializeMultisigParams.t) :
  decode_initialize_multisig i = Ok p ->
  1 <= InitializeMultisigParams.m p ->
  valid_initialize_multisig p /\
  bind (initialize_multisig p) decode_initialize_multisig = Ok p.
Proof.
  intros Hdec Hm.
  destruct (proj1 (decode_initialize_multisig_shape i p) Hdec)
    as (k0 & ks & mb & rest & Hkeys & Hdata & Hlen & Hp).
  assert (Hvalid : valid_initialize_multisig p).
  { subst p. unfold valid_initialize_multisig.
    cbn [InitializeMultisigParams.m InitializeMultisigParams.signers] in *.
    pose proof (byte.unsigned_range mb) as Hr. change (2 ^ 8) with 256 in Hr.
    split; [lia|].
    unfold pubkeys, slice_last. rewrite length_map.
    destruct (Z.to_nat (byte.unsigned mb)) as [|k] eqn:Hk; [lia|].
    rewrite length_skipn. lia. }
  split; [exact Hvalid|]. now apply initialize_multisig_roundtrip.
Qed.

Lemma decoded_initialize_multisig_reencodes_witness :
  valid_initialize_multisig Examples.multisig_2_of_2 /\
  bind (initialize_multisig Examples.multisig_2_of_2)
    decode_initialize_multisig = Ok Examples.multisig_2_of_2.
Proof.
  apply (decoded_initialize_multisig_reencodes
           Examples.multisig_two_instruction).
  - vm_compute. reflexivity.
  - cbn. lia.
Defined.

End MultisigDecoding.

(** ** One decoder per instruction *)
Section OneDecoder.
Import Construct Layouts Validate Instructions.

(** Each decoder accepts only data that starts with the discriminant of its
    own kind (0, 1, 2, 3, 9), so no instruction is accepted by two of the
    five decoders. *)
Theorem decoders_accept_own_discriminant (i : TransactionInstruction.t) :
  (forall p, decode_initialize_mint i = Ok p ->
     hd_error (TransactionInstruction.data i) = Some Byte.x00) /\
  (forall p, decode_initialize_account i = Ok p ->
     hd_error (TransactionInstruction.data i) = Some Byte.x01) /\
  (forall p, decode_initialize_multisig i = Ok p ->
     hd_error (TransactionInstruction.data i) = Some Byte.x02) /\
  (forall p, decode_transfer i = Ok p ->
     hd_error (TransactionInstruction.data i) = Some Byte.x03) /\
  (forall p, decode_close_account i = Ok p ->
     hd_error (TransactionInstruction.data i) = Some Byte.x09) /\
  (Nat.b2n (is_ok (decode_initialize_mint i))
   + Nat.b2n (is_ok (decode_initialize_account i))
   + Nat.b2n (is_ok (decode_initialize_multisig i))
   + Nat.b2n (is_ok (decode_transfer i))
   + Nat.b2n (is_ok (decode_close_account i)) <= 1)%nat.
Proof.
  assert (Hmint : forall p, decode_initialize_mint i = Ok p ->
            hd_error (TransactionInstruction.data i) = Some Byte.x00).
  { intros p Hp. destruct (proj1 (decode_initialize_mint_shape i p) Hp)
      as (? & ? & ? & ? & ? & ? & ? & ? & _ & -> & _). reflexivity. }
  assert (Haccount : forall p, decode_initialize_account i = Ok p ->
            hd_error (TransactionInstruction.data i) = Some Byte.x01).
  { intros p Hp. destruct (proj1 (decode_initialize_account_shape i p) Hp)
      as (? & ? & ? & ? & ? & ? & _ & -> & _). reflexivity. }
  assert (Hmultisig : forall p, decode_initialize_multisig i = Ok p ->
            hd_error (TransactionInstruction.data i) = Some Byte.x02).
  { intros p Hp. destruct (proj1 (decode_initialize_multisig_shape i p) Hp)
      as (? & ? & ? & ? & _ & -> & _). reflexivity. }
  assert (Htransfer : forall p, decode_transfer i = Ok p ->
            hd_error (TransactionInstruction.data i) = Some Byte.x03).
  { intros p Hp. destruct (proj1 (decode_transfer_shape i p) Hp)
      as (? & ? & ? & ? & ? & ? & _ & -> & _). reflexivity. }
  assert (Hclose : forall p, decode_close_account i = Ok p ->
            hd_error (TransactionInstruction.data i) = Some Byte.x09).
  { intros p Hp. destruct (proj1 (decode_close_account_shape i p) Hp)
      as (? & ? & ? & ? & ? & _ & -> & _). reflexivity. }
  repeat (split; [assumption|]).
  destruct (decode_initialize_mint i) as [p0|] eqn:H0;
  destruct (decode_initialize_account i) as [p1|] eqn:H1;
  destruct (decode_initialize_multisig i) as [p2|] eqn:H2;
  destruct (decode_transfer i) as [p3|] eqn:H3;
  destruct (decode_close_account i) as [p4|] eqn:H4;
  cbn [is_ok Nat.b2n Nat.add]; try lia;
  repeat match goal with
         | Hd : _ = Ok ?p, H : forall p, _ = Ok p -> _ |- _ =>
             pose proof (H p eq_refl); clear H
         end;
  congruence.
Qed.

Lemma decoders_accept_own_discriminant_witness :
  hd_error (TransactionInstruction.data Examples.transfer_three_keys) =
    Some Byte.x03 /\
  is_ok (decode_close_account Examples.transfer_three_keys) = false.
Proof.
  split.
  - apply (proj1 (proj2 (proj2 (proj2
             (decoders_accept_own_discriminant Examples.transfer_three_keys))))
             Examples.transfer_one).
    vm_compute. reflexivity.
  - reflexivity.
Defined.

End OneDecoder.
